(** * convert.py: JSON question records to a CSV for bulk import

    A shallow embedding of [src/convert.py] and the properties of its
    array-literal encoder, its row builder and its driver loop.

    Conventions of the model.
    - A Python [str] is a [string] of this file: a sequence of code points,
      each a number, lone surrogates included, and not the byte strings of
      the Standard Library.  String literals of this file are read as the
      code points of their characters.
    - A value read by [json.load] is a [json]: null, a boolean, an integer,
      a float, a string, an array or an object.  A float is modelled by the
      text Python prints for it.  Objects keep their keys in insertion order,
      as Python dicts do, so they are association lists; a lookup returns the
      first binding of the key.
    - An expression that can raise evaluates to a [result]: [Ok v] or
      [Raise e], with the Python exception as a value of type [exn].
    - Writing a text to the console or to the output file encodes it in
      UTF-8, which refuses a lone surrogate: both raise on such a text.
    - Two tables of the Python library that the script consults are not
      part of its source and are taken as parameters, the class [Library]:
      which characters [repr] leaves unescaped, and the message of the error
      that the CSV writer raises on a record it cannot encode. *)

From Stdlib Require Import List ZArith NArith Lia Bool Strings.Byte Decimal.
Import ListNotations.
Open Scope bool_scope.

Set Warnings "-register-all".

(** ** Characters and strings *)

(** A character is its code point. *)
Definition char : Set := N.

Inductive string : Set :=
| EmptyString : string
| String (c : char) (s : string) : string.

Module Literal.

(** Reading a literal of this file: one character per byte. *)
Fixpoint str_of_bytes (l : list byte) : string :=
  match l with
  | [] => EmptyString
  | b :: l' => String (Byte.to_N b) (str_of_bytes l')
  end.

Fixpoint bytes_of_str (s : string) : option (list byte) :=
  match s with
  | EmptyString => Some []
  | String c s' =>
      match Byte.of_N c, bytes_of_str s' with
      | Some b, Some l => Some (b :: l)
      | _, _ => None
      end
  end.

Definition digit_of_byte (b : byte) : option N :=
  let n := Byte.to_N b in
  if (48 <=? n)%N && (n <=? 57)%N then Some (n - 48)%N else None.

(** A character literal is one character, or the three decimal digits of
    a code. *)
Definition char_of_bytes (l : list byte) : option N :=
  match l with
  | [b] => Some (Byte.to_N b)
  | [a; b; c] =>
      match digit_of_byte a, digit_of_byte b, digit_of_byte c with
      | Some x, Some y, Some z => Some (100 * x + 10 * y + z)%N
      | _, _, _ => None
      end
  | _ => None
  end.

Definition bytes_of_char (c : N) : option (list byte) :=
  if (33 <=? c)%N && (c <=? 126)%N && negb (c =? 34)%N then
    match Byte.of_N c with
    | Some b => Some [b]
    | None => None
    end
  else None.

End Literal.

Declare Scope str_scope.
Delimit Scope str_scope with str.
Bind Scope str_scope with string.
String Notation string Literal.str_of_bytes Literal.bytes_of_str : str_scope.
Declare Scope pychar_scope.
Delimit Scope pychar_scope with char.
String Notation N Literal.char_of_bytes Literal.bytes_of_char : pychar_scope.
Open Scope str_scope.

Module Str.

Fixpoint append (a b : string) : string :=
  match a with
  | EmptyString => b
  | String c a' => String c (append a' b)
  end.

Fixpoint length (s : string) : nat :=
  match s with
  | EmptyString => 0
  | String _ s' => S (length s')
  end.

Fixpoint eqb (a b : string) : bool :=
  match a, b with
  | EmptyString, EmptyString => true
  | String x a', String y b' => N.eqb x y && eqb a' b'
  | _, _ => false
  end.

End Str.

Notation "a ++ b" := (Str.append a b)
  (right associativity, at level 60) : str_scope.

Module Chars.

Definition dq : char := "034"%char.      (* the double quote *)
Definition sq : char := "039"%char.      (* the single quote *)
Definition bs : char := "092"%char.      (* the backslash *)
Definition tab : char := "009"%char.
Definition lf : char := "010"%char.
Definition cr : char := "013"%char.
Definition backspace : char := "008"%char.
Definition formfeed : char := "012"%char.

(** The one-character string. *)
Definition chr (c : char) : string := String c EmptyString.

Definition hex_digit (n : nat) : char :=
  match n with
  | 0 => "0" | 1 => "1" | 2 => "2" | 3 => "3" | 4 => "4" | 5 => "5"
  | 6 => "6" | 7 => "7" | 8 => "8" | 9 => "9" | 10 => "a" | 11 => "b"
  | 12 => "c" | 13 => "d" | 14 => "e" | _ => "f"
  end%char.

(** The last [width] lowercase hexadecimal digits of a number, before
    [acc]. *)
Fixpoint hex_onto (width : nat) (n : N) (acc : string) : string :=
  match width with
  | 0 => acc
  | S width' =>
      hex_onto width' (n / 16)%N
               (String (hex_digit (N.to_nat (n mod 16)%N)) acc)
  end.

Definition hex (width : nat) (n : N) : string := hex_onto width n EmptyString.

(** A surrogate code point: from D800 to DFFF. *)
Definition is_surrogate (c : char) : bool :=
  (55296 <=? c)%N && (c <=? 57343)%N.

End Chars.
Import Chars.

(** ** Measures on strings *)

Module Measure.

(** The number of backslashes and double quotes of a string. *)
Fixpoint specials (s : string) : nat :=
  match s with
  | EmptyString => 0
  | String c s' =>
      (if N.eqb c bs || N.eqb c dq then 1 else 0) + specials s'
  end.

(** From the space to the tilde. *)
Definition printable_ascii (c : char) : bool :=
  (32 <=? c)%N && (c <=? 126)%N.

Fixpoint all_chars (p : char -> bool) (s : string) : bool :=
  match s with
  | EmptyString => true
  | String c s' => p c && all_chars p s'
  end.

End Measure.

(** ** What the model takes from the Python library *)

Class Library : Type := {
  (** [str.isprintable] on one character above the ASCII range, as the
      Unicode database of the interpreter has it. *)
  isprintable : char -> bool;
  (** The message of the [UnicodeEncodeError] that the CSV writer raises
      on a record, given the texts of its cells: it depends on where the
      surrogate stands in the record once quoted. *)
  csv_error : list string -> string
}.

Module PyStr.

(** [sep.join(parts)] *)
Fixpoint join (sep : string) (parts : list string) : string :=
  match parts with
  | [] => EmptyString
  | [p] => p
  | p :: rest => p ++ sep ++ join sep rest
  end.

(** [s.replace(old, new)] for a pattern [old] of one character, the only
    kind the script uses: every occurrence is replaced, left to right. *)
Fixpoint replace (old : char) (new : string) (s : string) : string :=
  match s with
  | EmptyString => EmptyString
  | String c s' =>
      if N.eqb c old then new ++ replace old new s'
      else String c (replace old new s')
  end.

(** [c in s] *)
Fixpoint contains (c : char) (s : string) : bool :=
  match s with
  | EmptyString => false
  | String c' s' => N.eqb c' c || contains c s'
  end.

(** The characters of a string, each as a string of length one: what
    iterating over a [str] yields. *)
Fixpoint chars (s : string) : list string :=
  match s with
  | EmptyString => []
  | String c s' => chr c :: chars s'
  end.

(** The digits of a decimal number, most significant first. *)
Fixpoint of_uint (d : uint) : string :=
  match d with
  | Nil => EmptyString
  | D0 d => String "0" (of_uint d)
  | D1 d => String "1" (of_uint d)
  | D2 d => String "2" (of_uint d)
  | D3 d => String "3" (of_uint d)
  | D4 d => String "4" (of_uint d)
  | D5 d => String "5" (of_uint d)
  | D6 d => String "6" (of_uint d)
  | D7 d => String "7" (of_uint d)
  | D8 d => String "8" (of_uint d)
  | D9 d => String "9" (of_uint d)
  end%char.

Definition of_digits (d : uint) : string :=
  match d with
  | Nil => "0"
  | _ => of_uint d
  end.

(** [str(n)] for an integer. *)
Definition of_Z (n : Z) : string :=
  match Z.to_int n with
  | Pos d => of_digits d
  | Neg d => String "-"%char (of_digits d)
  end.

Definition of_N (n : N) : string := of_Z (Z.of_N n).

Section Repr.

Context {L : Library}.

(** Whether [repr] leaves a character as it is: the ASCII characters from
    the space to the tilde, and above them what the library says. *)
Definition printable (c : char) : bool :=
  if (c <? 32)%N then false
  else if (c <? 127)%N then true
  else if (c <? 128)%N then false
  else isprintable c.

(** [repr(s)] for a string: single quotes unless the string has a single
    quote and no double quote. *)
Definition repr_quote (s : string) : char :=
  if contains sq s && negb (contains dq s) then dq else sq.

Definition repr_char (quote c : char) : string :=
  if N.eqb c quote || N.eqb c bs then String bs (chr c)
  else if N.eqb c tab then "\t"
  else if N.eqb c lf then "\n"
  else if N.eqb c cr then "\r"
  else if printable c then chr c
  else if (c <? 256)%N then "\x" ++ hex 2 c
  else if (c <? 65536)%N then "\u" ++ hex 4 c
  else "\U" ++ hex 8 c.

Fixpoint repr_body (quote : char) (s : string) : string :=
  match s with
  | EmptyString => EmptyString
  | String c s' => repr_char quote c ++ repr_body quote s'
  end.

Definition repr (s : string) : string :=
  let q := repr_quote s in
  String q (repr_body q s ++ chr q).

End Repr.

End PyStr.

(** ** Encoding a text in UTF-8 *)

Module Codec.

(** The strict encoder takes every text without a surrogate. *)
Definition can_encode (s : string) : bool :=
  Measure.all_chars (fun c => negb (is_surrogate c)) s.

(** The first surrogate of a text: its position, the character, and the
    text after it. *)
Fixpoint first_surrogate (s : string) (position : N)
  : option (N * char * string) :=
  match s with
  | EmptyString => None
  | String c s' =>
      if is_surrogate c then Some (position, c, s')
      else first_surrogate s' (position + 1)%N
  end.

(** How many surrogates a text starts with. *)
Fixpoint surrogate_run (s : string) : N :=
  match s with
  | String c s' => if is_surrogate c then (1 + surrogate_run s')%N else 0%N
  | EmptyString => 0%N
  end.

(** [str(e)] for the [UnicodeEncodeError] of a text: it names the first
    surrogate and its position, or the positions of a run of them. *)
Definition error_message (s : string) : string :=
  match first_surrogate s 0 with
  | None => EmptyString
  | Some (start, c, rest) =>
      let more := surrogate_run rest in
      if (more =? 0)%N then
        "'utf-8' codec can't encode character '\u" ++ hex 4 c
          ++ "' in position " ++ PyStr.of_N start
          ++ ": surrogates not allowed"
      else
        "'utf-8' codec can't encode characters in position "
          ++ PyStr.of_N start ++ "-" ++ PyStr.of_N (start + more)
          ++ ": surrogates not allowed"
  end.

End Codec.


(** ** Floats *)

Module Float.

(** The characters of the text of a finite float. *)
Inductive fchar : Set :=
| F0 | F1 | F2 | F3 | F4 | F5 | F6 | F7 | F8 | F9
| FDot | FMinus | FPlus | FExp.

Definition code (f : fchar) : char :=
  match f with
  | F0 => "0" | F1 => "1" | F2 => "2" | F3 => "3" | F4 => "4"
  | F5 => "5" | F6 => "6" | F7 => "7" | F8 => "8" | F9 => "9"
  | FDot => "." | FMinus => "-" | FPlus => "+" | FExp => "e"
  end%char.

Fixpoint text (l : list fchar) : string :=
  match l with
  | [] => EmptyString
  | f :: l' => String (code f) (text l')
  end.

(** A float as the script sees it: a finite float is the text [repr]
    prints for it, the shortest decimal text that reads back as the same
    float, such as 1.5, -0.0 or 1e+16; the other floats are the two
    infinities and the not-a-number. *)
Inductive pyfloat : Set :=
| Finite (digits : list fchar)
| Infinity (negative : bool)
| NaN.

(** [repr(x)], which is also [str(x)]. *)
Definition repr (x : pyfloat) : string :=
  match x with
  | Finite digits => text digits
  | Infinity false => "inf"
  | Infinity true => "-inf"
  | NaN => "nan"
  end.

(** The text [json.dumps] writes for a float. *)
Definition json_text (x : pyfloat) : string :=
  match x with
  | Finite digits => text digits
  | Infinity false => "Infinity"
  | Infinity true => "-Infinity"
  | NaN => "NaN"
  end.

(** [x == 0.0]: the two zeros print as 0.0 and -0.0. *)
Definition is_zero (x : pyfloat) : bool :=
  match x with
  | Finite digits => Str.eqb (text digits) "0.0" || Str.eqb (text digits) "-0.0"
  | _ => false
  end.

End Float.

(** ** Values read from the input document *)

Inductive json : Type :=
| JNull : json
| JBool : bool -> json
| JInt : Z -> json
| JFloat : Float.pyfloat -> json
| JStr : string -> json
| JList : list json -> json
| JDict : list (string * json) -> json.

(** A Python dict with string keys, in insertion order. *)
Definition dict : Type := list (string * json).

Module Dict.

Fixpoint lookup (key : string) (d : dict) : option json :=
  match d with
  | [] => None
  | (k, v) :: d' => if Str.eqb k key then Some v else lookup key d'
  end.

Definition keys (d : dict) : list string := map fst d.

(** [d.get(key, default)] *)
Definition get (key : string) (d : dict) (default : json) : json :=
  match lookup key d with
  | Some v => v
  | None => default
  end.

End Dict.

(** ** Exceptions and results *)

Inductive exn : Type :=
| AttributeError (type_name attribute : string)
| TypeError_not_iterable (type_name : string)
| ValueError_extra_fields (fields : list string)
| FileNotFoundError (path : string)
| JSONDecodeError (message : string)
| UnicodeEncodeError (message : string).

Inductive result (A : Type) : Type :=
| Ok : A -> result A
| Raise : exn -> result A.
Arguments Ok {A} _.
Arguments Raise {A} _.

Definition bind {A B : Type} (r : result A) (k : A -> result B) : result B :=
  match r with
  | Ok a => k a
  | Raise e => Raise e
  end.

Notation "x <- r ;; k" := (bind r (fun x => k))
  (at level 61, r at next level, right associativity).

(** ** The Python built-ins the script applies to those values *)

Module Py.

(** [type(v).__name__] *)
Definition type_name (v : json) : string :=
  match v with
  | JNull => "NoneType"
  | JBool _ => "bool"
  | JInt _ => "int"
  | JFloat _ => "float"
  | JStr _ => "str"
  | JList _ => "list"
  | JDict _ => "dict"
  end.

(** [bool(v)]: the test of [if not v]. *)
Definition truthy (v : json) : bool :=
  match v with
  | JNull => false
  | JBool b => b
  | JInt n => negb (n =? 0)%Z
  | JFloat x => negb (Float.is_zero x)
  | JStr s => negb (Str.eqb s EmptyString)
  | JList l => match l with [] => false | _ :: _ => true end
  | JDict d => match d with [] => false | _ :: _ => true end
  end.

(** The items [for item in v] runs over: the elements of a list, the
    characters of a string, the keys of a dict; other values are not
    iterable. *)
Definition iter (v : json) : result (list json) :=
  match v with
  | JList l => Ok l
  | JStr s => Ok (map JStr (PyStr.chars s))
  | JDict d => Ok (map JStr (Dict.keys d))
  | _ => Raise (TypeError_not_iterable (type_name v))
  end.

(** [v.get(key, default)]: only a dict has the method. *)
Definition get (v : json) (key : string) (default : json) : result json :=
  match v with
  | JDict d => Ok (Dict.get key d default)
  | _ => Raise (AttributeError (type_name v) "get")
  end.

Section Text.

Context {L : Library}.

(** [repr(v)] *)
Fixpoint repr (v : json) : string :=
  match v with
  | JNull => "None"
  | JBool true => "True"
  | JBool false => "False"
  | JInt n => PyStr.of_Z n
  | JFloat x => Float.repr x
  | JStr s => PyStr.repr s
  | JList l => "[" ++ PyStr.join ", " (map repr l) ++ "]"
  | JDict d =>
      "{" ++ PyStr.join ", "
               (map (fun kv => PyStr.repr (fst kv) ++ ": " ++ repr (snd kv)) d)
          ++ "}"
  end.

(** [str(v)]: a string is itself, everything else prints as its repr. *)
Definition str (v : json) : string :=
  match v with
  | JStr s => s
  | _ => repr v
  end.

(** [str(e)] for the exceptions of the model. *)
Definition str_exn (e : exn) : string :=
  match e with
  | AttributeError t a =>
      "'" ++ t ++ "' object has no attribute '" ++ a ++ "'"
  | TypeError_not_iterable t => "'" ++ t ++ "' object is not iterable"
  | ValueError_extra_fields fs =>
      "dict contains fields not in fieldnames: "
        ++ PyStr.join ", " (map PyStr.repr fs)
  | FileNotFoundError path =>
      "[Errno 2] No such file or directory: " ++ PyStr.repr path
  | JSONDecodeError message => message
  | UnicodeEncodeError message => message
  end.

End Text.

End Py.

(** ** The array-literal encoder: [format_pg_array_correctly] *)

(** [item_str.replace(bs, bs bs).replace(dq, bs dq)] *)
Definition escape_item (item_str : string) : string :=
  PyStr.replace dq (String bs (chr dq))
    (PyStr.replace bs (String bs (chr bs)) item_str).

Section Encoder.

Context {L : Library}.

(** One turn of the loop: the element as text, escaped, wrapped in double
    quotes. *)
Definition format_item (item : json) : string :=
  let item_str := Py.str item in
  let item_str := escape_item item_str in
  String dq (item_str ++ chr dq).

(** The loop [for item in py_list: ... formatted_list.append(...)]. *)
Fixpoint format_loop (items : list json) (formatted_list : list string)
  : list string :=
  match items with
  | [] => formatted_list
  | item :: rest => format_loop rest (formatted_list ++ [format_item item])%list
  end.

Definition format_pg_array_correctly (py_list : json) : result string :=
  if negb (Py.truthy py_list) then Ok "{}"
  else
    items <- Py.iter py_list ;;
    Ok ("{" ++ PyStr.join "," (format_loop items []) ++ "}").

End Encoder.

(** ** The nested-object encoder: [json.dumps] with its default options *)

Module Json.

(** One character inside a JSON string, [ensure_ascii] being on: the
    backslash, the double quote and everything outside the range from the
    space to the tilde are escaped, a character above FFFF as the two
    surrogates of its UTF-16 form. *)
Definition escape_char (c : char) : string :=
  if N.eqb c dq then String bs (chr dq)
  else if N.eqb c bs then String bs (chr bs)
  else if N.eqb c lf then "\n"
  else if N.eqb c cr then "\r"
  else if N.eqb c tab then "\t"
  else if N.eqb c backspace then "\b"
  else if N.eqb c formfeed then "\f"
  else if (32 <=? c)%N && (c <=? 126)%N then chr c
  else if (c <? 65536)%N then "\u" ++ hex 4 c
  else
    let v := (c - 65536)%N in
    "\u" ++ hex 4 (55296 + (v / 1024) mod 1024)%N
      ++ "\u" ++ hex 4 (56320 + v mod 1024)%N.

Fixpoint escape (s : string) : string :=
  match s with
  | EmptyString => EmptyString
  | String c s' => escape_char c ++ escape s'
  end.

Definition encode_string (s : string) : string :=
  String dq (escape s ++ chr dq).

(** [json.dumps(v)]: items separated by a comma and a space, keys from
    values by a colon and a space. *)
Fixpoint dumps (v : json) : string :=
  match v with
  | JNull => "null"
  | JBool true => "true"
  | JBool false => "false"
  | JInt n => PyStr.of_Z n
  | JFloat x => Float.json_text x
  | JStr s => encode_string s
  | JList l => "[" ++ PyStr.join ", " (map dumps l) ++ "]"
  | JDict d =>
      "{" ++ PyStr.join ", "
               (map (fun kv => encode_string (fst kv) ++ ": " ++ dumps (snd kv))
                    d)
          ++ "}"
  end.

End Json.

(** ** The CSV writer *)

(** The rows handed to [csv.writer.writerow], each a list of cells. *)
Definition csv_file : Type := list (list json).

Definition header : list string :=
  [ "v1_id"; "subject"; "topic"; "subTopic"; "examName"; "examYear";
    "examDateShift"; "difficulty"; "questionType"; "question"; "question_hi";
    "options"; "options_hi"; "correct"; "tags"; "explanation" ].

Module DictWriter.

Definition mem (k : string) (l : list string) : bool :=
  existsb (Str.eqb k) l.

(** [_dict_to_list]: a key outside the field names raises; otherwise the
    cells are the values in the order of the field names, a missing one
    being the empty string. *)
Definition dict_to_list (fieldnames : list string) (rowdict : dict)
  : result (list json) :=
  let wrong_fields :=
    filter (fun k => negb (mem k fieldnames)) (Dict.keys rowdict) in
  match wrong_fields with
  | _ :: _ => Raise (ValueError_extra_fields wrong_fields)
  | [] =>
      Ok (map (fun key =>
                 match Dict.lookup key rowdict with
                 | Some v => v
                 | None => JStr EmptyString
                 end) fieldnames)
  end.

(** [writeheader]: the row that maps every field name to itself. *)
Definition header_dict (fieldnames : list string) : dict :=
  map (fun k => (k, JStr k)) fieldnames.

End DictWriter.

Section Writer.

Context {L : Library}.

(** The text the writer makes of a cell: nothing for [None], a string as
    it is, [str(v)] for every other value. *)
Definition cell_text (v : json) : string :=
  match v with
  | JNull => EmptyString
  | _ => Py.str v
  end.

(** The record goes to the output file in one write, which encodes it:
    the quotes, commas and line end that the writer adds are ASCII, so the
    write raises exactly when a cell holds a surrogate. *)
Definition encode_record (cells : list json) : result unit :=
  let texts := map cell_text cells in
  if forallb Codec.can_encode texts then Ok tt
  else Raise (UnicodeEncodeError (csv_error texts)).

End Writer.

(** ** The row builder: the body of the [try] block *)

(** [q.get(outer, {}).get(inner)] *)
Definition nested_get (q : json) (outer inner : string) : result json :=
  m <- Py.get q outer (JDict []) ;;
  Py.get m inner JNull.

(** The nested-object encoder as the script applies it:
    [json.dumps(q.get('explanation', {}))]. *)
Definition encode_explanation (q : json) : result string :=
  explanation <- Py.get q "explanation" (JDict []) ;;
  Ok (Json.dumps explanation).

Section Row.

Context {L : Library}.

(** Lines 52 to 75: the three array literals, the JSON text, then the
    dict literal, its values computed from top to bottom. *)
Definition build_row (q : json) : result dict :=
  options <- Py.get q "options" (JList []) ;;
  options_pg <- format_pg_array_correctly options ;;
  options_hi <- Py.get q "options_hi" (JList []) ;;
  options_hi_pg <- format_pg_array_correctly options_hi ;;
  tags <- Py.get q "tags" (JList []) ;;
  tags_pg <- format_pg_array_correctly tags ;;
  explanation_jsonb <- encode_explanation q ;;
  v1_id <- Py.get q "id" JNull ;;
  subject <- nested_get q "classification" "subject" ;;
  topic <- nested_get q "classification" "topic" ;;
  subTopic <- nested_get q "classification" "subTopic" ;;
  examName <- nested_get q "sourceInfo" "examName" ;;
  examYear <- nested_get q "sourceInfo" "examYear" ;;
  examDateShift <- nested_get q "sourceInfo" "examDateShift" ;;
  difficulty <- nested_get q "properties" "difficulty" ;;
  questionType <- nested_get q "properties" "questionType" ;;
  question <- Py.get q "question" JNull ;;
  question_hi <- Py.get q "question_hi" JNull ;;
  correct <- Py.get q "correct" JNull ;;
  Ok [ ("v1_id", v1_id);
       ("subject", subject);
       ("topic", topic);
       ("subTopic", subTopic);
       ("examName", examName);
       ("examYear", examYear);
       ("examDateShift", examDateShift);
       ("difficulty", difficulty);
       ("questionType", questionType);
       ("question", question);
       ("question_hi", question_hi);
       ("options", JStr options_pg);
       ("options_hi", JStr options_hi_pg);
       ("correct", correct);
       ("tags", JStr tags_pg);
       ("explanation", JStr explanation_jsonb) ].

(** The row as [writer.writerow] hands it to the CSV writer. *)
Definition project (q : json) : result (list json) :=
  row <- build_row q ;;
  DictWriter.dict_to_list header row.

(** The [try] block as a function of the record: the cells of the row it
    writes, or the exception it raises, be it while the row is built or
    while it is written. *)
Definition attempt (q : json) : result (list json) :=
  cells <- project q ;;
  _ <- encode_record cells ;;
  Ok cells.

End Row.

(** ** The driver *)

Definition JSON_FILE_PATH : string := "questions.json".
Definition CSV_FILE_PATH : string := "questions_for_supabase.csv".

(** [print(line)] on a console that holds the lines [out]: standard
    output encodes the line, and raises when it cannot. *)
Definition emit (line : string) (out : list string) : result (list string) :=
  if Codec.can_encode line then Ok (out ++ [line])%list
  else Raise (UnicodeEncodeError (Codec.error_message line)).

(** What the loop changes: the lines printed, the rows written to the
    output file and the counter. *)
Record state : Type := mkState {
  stdout : list string;
  f_out : csv_file;
  count : nat
}.

Definition print (line : string) (st : state) : result state :=
  out <- emit line (stdout st) ;;
  Ok (mkState out (f_out st) (count st)).

Definition incr_count (st : state) : state :=
  mkState (stdout st) (f_out st) (S (count st)).

Definition start_line : string :=
  "Starting conversion of " ++ JSON_FILE_PATH ++ " with CORRECTED script...".

Definition success_line (count : nat) : string :=
  "Successfully converted " ++ PyStr.of_Z (Z.of_nat count) ++ " questions to "
    ++ CSV_FILE_PATH ++ " using the correct format.".

Definition not_found_line : string :=
  "Error: " ++ JSON_FILE_PATH ++ " not found.".

(** The input file as the script finds it. *)
Inductive input_file : Type :=
| Missing : input_file
| Malformed (message : string) : input_file
| Document (questions_data : json) : input_file.

(** What a run leaves behind: the console, the output file when it was
    opened, and the exception that no handler caught, if any. *)
Record world : Type := mkWorld {
  console : list string;
  output : option csv_file;
  uncaught : option exn
}.

Section Driver.

Context {L : Library}.

(** [writer.writerow]: the record is encoded, then it is in the file. *)
Definition writerow (cells : list json) (st : state) : result state :=
  _ <- encode_record cells ;;
  Ok (mkState (stdout st) (f_out st ++ [cells])%list (count st)).

Definition error_line (id : json) (e : exn) : string :=
  "Error processing question " ++ Py.str id ++ ": " ++ Py.str_exn e.

(** The [try] block of one turn of the loop: the row is built, written,
    and counted. *)
Definition try_record (q : json) (st : state) : result state :=
  cells <- project q ;;
  st' <- writerow cells st ;;
  Ok (incr_count st').

(** One turn of the loop.  The handler of the inner [try] looks the
    identifier up on the record again and prints; when either raises, the
    exception leaves the loop. *)
Definition process (q : json) (st : state) : result state :=
  match try_record q st with
  | Ok st' => Ok st'
  | Raise e =>
      id <- Py.get q "id" JNull ;;
      print (error_line id e) st
  end.

(** [for q in questions_data]: the state when the loop ends, and the
    exception that ended it, if one did. *)
Fixpoint for_each (qs : list json) (st : state) : state * option exn :=
  match qs with
  | [] => (st, None)
  | q :: rest =>
      match process q st with
      | Ok st' => for_each rest st'
      | Raise e => (st, Some e)
      end
  end.

Definition unexpected_line (e : exn) : string :=
  "An unexpected error occurred: " ++ Py.str_exn e.

(** The two handlers of the outer [try]. *)
Definition handle (e : exn) : string :=
  match e with
  | FileNotFoundError _ => not_found_line
  | _ => unexpected_line e
  end.

(** The body of the outer [try], from the two [open] calls to the last
    [print]: the input is opened first, so a missing input leaves the output
    untouched. *)
Definition try_body (f : input_file) (out : list string)
  : list string * option csv_file * option exn :=
  match f with
  | Missing => (out, None, Some (FileNotFoundError JSON_FILE_PATH))
  | Malformed message => (out, Some [], Some (JSONDecodeError message))
  | Document questions_data =>
      let st := mkState out [] 0 in
      match
        cells <- DictWriter.dict_to_list header (DictWriter.header_dict header) ;;
        writerow cells st
      with
      | Raise e => (out, Some [], Some e)
      | Ok st =>
          match Py.iter questions_data with
          | Raise e => (stdout st, Some (f_out st), Some e)
          | Ok qs =>
              match for_each qs st with
              | (st', Some e) => (stdout st', Some (f_out st'), Some e)
              | (st', None) =>
                  match print (success_line (count st')) st' with
                  | Ok st'' => (stdout st'', Some (f_out st''), None)
                  | Raise e => (stdout st', Some (f_out st'), Some e)
                  end
              end
          end
      end
  end.

(** The script: the first [print], the outer [try] and its handlers.  An
    exception raised by the [print] of a handler is caught by nothing. *)
Definition run (f : input_file) : world :=
  match emit start_line [] with
  | Raise e => mkWorld [] None (Some e)
  | Ok out =>
      match try_body f out with
      | (out', file, None) => mkWorld out' file None
      | (out', file, Some e) =>
          match emit (handle e) out' with
          | Ok out'' => mkWorld out'' file None
          | Raise e' => mkWorld out' file (Some e')
          end
      end
  end.

End Driver.

(** ** The array-literal parser of the target database

    A reference parser that follows the words of the specification: a
    one-dimensional array literal of quoted elements, an opening brace, the
    elements between double quotes and separated by commas, a closing brace.
    Inside an element a backslash quotes the character after it, which turns
    a doubled backslash into a backslash and a backslash followed by a
    double quote into a double quote. *)

Module PgArray.

Inductive mode : Type :=
| Start                     (* the opening brace is expected *)
| Opened                    (* an element or the closing brace *)
| Quoted (cur : string)     (* inside an element *)
| Escaped (cur : string)    (* inside an element, after a backslash *)
| AfterElement              (* a comma or the closing brace *)
| AfterComma                (* an element *)
| Closed.                   (* nothing more *)

Fixpoint parse_from (m : mode) (acc : list string) (s : string)
  : option (list string) :=
  match s with
  | EmptyString => match m with Closed => Some acc | _ => None end
  | String c s' =>
      match m with
      | Start =>
          if N.eqb c "{"%char then parse_from Opened acc s' else None
      | Opened =>
          if N.eqb c "}"%char then parse_from Closed acc s'
          else if N.eqb c dq then parse_from (Quoted EmptyString) acc s'
          else None
      | Quoted cur =>
          if N.eqb c bs then parse_from (Escaped cur) acc s'
          else if N.eqb c dq
               then parse_from AfterElement (acc ++ [cur])%list s'
          else parse_from (Quoted (cur ++ chr c)) acc s'
      | Escaped cur => parse_from (Quoted (cur ++ chr c)) acc s'
      | AfterElement =>
          if N.eqb c ","%char then parse_from AfterComma acc s'
          else if N.eqb c "}"%char then parse_from Closed acc s'
          else None
      | AfterComma =>
          if N.eqb c dq then parse_from (Quoted EmptyString) acc s'
          else None
      | Closed => None
      end
  end.

Definition parse (s : string) : option (list string) :=
  parse_from Start [] s.

End PgArray.

(** ** Reading a JSON text back

    A reference reader for JSON texts without floating-point numbers, used
    to state that an encoded value parses back.  It follows the JSON
    grammar; a key met twice keeps its first place and takes the last value,
    and an escaped pair of surrogates is one character, as [json.loads]
    does. *)

Module JsonRead.

Definition is_ws (c : char) : bool :=
  N.eqb c " "%char || N.eqb c tab || N.eqb c lf || N.eqb c cr.

Fixpoint skip_ws (s : string) : string :=
  match s with
  | String c s' => if is_ws c then skip_ws s' else s
  | EmptyString => s
  end.

Definition digit_of (c : char) : option Z :=
  if (48 <=? c)%N && (c <=? 57)%N then Some (Z.of_N (c - 48)) else None.

Definition hex_of (c : char) : option N :=
  if (48 <=? c)%N && (c <=? 57)%N then Some (c - 48)%N
  else if (97 <=? c)%N && (c <=? 102)%N then Some (c - 87)%N
  else if (65 <=? c)%N && (c <=? 70)%N then Some (c - 55)%N
  else None.

Definition hex4_of (h1 h2 h3 h4 : char) : option N :=
  match hex_of h1, hex_of h2, hex_of h3, hex_of h4 with
  | Some a, Some b, Some c, Some d =>
      Some (4096 * a + 256 * b + 16 * c + d)%N
  | _, _, _, _ => None
  end.

(** The digits at the head of [s], as a number, with how many there were
    and what follows them. *)
Fixpoint digits (s : string) (acc : Z) (seen : nat) : Z * nat * string :=
  match s with
  | String c s' =>
      match digit_of c with
      | Some d => digits s' (10 * acc + d)%Z (S seen)
      | None => (acc, seen, s)
      end
  | EmptyString => (acc, seen, s)
  end.

Definition starts_fraction (s : string) : bool :=
  match s with
  | String c _ => N.eqb c "."%char || N.eqb c "e"%char || N.eqb c "E"%char
  | EmptyString => false
  end.

(** An integer: no leading zero, and no fraction or exponent after it. *)
Definition read_int (negative : bool) (s : string) : option (json * string) :=
  let leading_zero :=
    match s with
    | String z (String c _) =>
        N.eqb z "0"%char
        && match digit_of c with Some _ => true | None => false end
    | _ => false
    end in
  match digits s 0%Z 0 with
  | (_, 0, _) => None
  | (n, _, rest) =>
      if leading_zero || starts_fraction rest then None
      else Some (JInt (if negative then - n else n)%Z, rest)
  end.

Definition is_high (code : N) : bool := (55296 <=? code)%N && (code <=? 56319)%N.
Definition is_low (code : N) : bool := (56320 <=? code)%N && (code <=? 57343)%N.

(** The characters of a string up to its closing quote. *)
Fixpoint read_chars (s : string) (acc : string) : option (string * string) :=
  match s with
  | EmptyString => None
  | String c s' =>
      if N.eqb c dq then Some (acc, s')
      else if N.eqb c bs then
        match s' with
        | EmptyString => None
        | String e s'' =>
            let plain (c' : char) := read_chars s'' (acc ++ chr c') in
            if N.eqb e dq then plain dq
            else if N.eqb e bs then plain bs
            else if N.eqb e "/"%char then plain "/"%char
            else if N.eqb e "b"%char then plain backspace
            else if N.eqb e "f"%char then plain formfeed
            else if N.eqb e "n"%char then plain lf
            else if N.eqb e "r"%char then plain cr
            else if N.eqb e "t"%char then plain tab
            else if N.eqb e "u"%char then
              match s'' with
              | String h1 (String h2 (String h3 (String h4 t))) =>
                  match hex4_of h1 h2 h3 h4 with
                  | None => None
                  | Some code =>
                      let single := read_chars t (acc ++ chr code) in
                      match t with
                      | String b (String u (String l1 (String l2
                          (String l3 (String l4 t'))))) =>
                          match hex4_of l1 l2 l3 l4 with
                          | Some low =>
                              if N.eqb b bs && N.eqb u "u"%char
                                 && is_high code && is_low low
                              then
                                read_chars t'
                                  (acc ++ chr (65536 + (code - 55296) * 1024
                                               + (low - 56320))%N)
                              else single
                          | None => single
                          end
                      | _ => single
                      end
                  end
              | _ => None
              end
            else None
        end
      else if (c <? 32)%N then None
      else read_chars s' (acc ++ chr c)
  end.

(** What follows the prefix [p] in [s], when [s] starts with it. *)
Fixpoint strip (p s : string) : option string :=
  match p with
  | EmptyString => Some s
  | String x p' =>
      match s with
      | String y s' => if N.eqb x y then strip p' s' else None
      | EmptyString => None
      end
  end.

(** [d[key] = v] *)
Fixpoint set (key : string) (v : json) (d : dict) : dict :=
  match d with
  | [] => [(key, v)]
  | (k, x) :: d' =>
      if Str.eqb k key then (k, v) :: d' else (k, x) :: set key v d'
  end.

Fixpoint read_value (fuel : nat) (s : string) {struct fuel}
  : option (json * string) :=
  match fuel with
  | 0 => None
  | S fuel' =>
      match skip_ws s with
      | EmptyString => None
      | String c s' as t =>
          if N.eqb c dq then
            match read_chars s' EmptyString with
            | Some (x, rest) => Some (JStr x, rest)
            | None => None
            end
          else if N.eqb c "["%char then
            match skip_ws s' with
            | String b rest =>
                if N.eqb b "]"%char then Some (JList [], rest)
                else read_items fuel' s' []
            | EmptyString => None
            end
          else if N.eqb c "{"%char then
            match skip_ws s' with
            | String b rest =>
                if N.eqb b "}"%char then Some (JDict [], rest)
                else read_members fuel' s' []
            | EmptyString => None
            end
          else if N.eqb c "-"%char then read_int true s'
          else
            match strip "null" t, strip "true" t, strip "false" t with
            | Some rest, _, _ => Some (JNull, rest)
            | _, Some rest, _ => Some (JBool true, rest)
            | _, _, Some rest => Some (JBool false, rest)
            | None, None, None => read_int false t
            end
      end
  end
with read_items (fuel : nat) (s : string) (acc : list json) {struct fuel}
  : option (json * string) :=
  match fuel with
  | 0 => None
  | S fuel' =>
      match read_value fuel' s with
      | None => None
      | Some (v, rest) =>
          match skip_ws rest with
          | String c rest' =>
              if N.eqb c ","%char
              then read_items fuel' rest' (acc ++ [v])%list
              else if N.eqb c "]"%char
              then Some (JList (acc ++ [v])%list, rest')
              else None
          | EmptyString => None
          end
      end
  end
with read_members (fuel : nat) (s : string) (acc : dict) {struct fuel}
  : option (json * string) :=
  match fuel with
  | 0 => None
  | S fuel' =>
      match skip_ws s with
      | String c s' =>
          if N.eqb c dq then
            match read_chars s' EmptyString with
            | None => None
            | Some (key, rest) =>
                match skip_ws rest with
                | String colon rest' =>
                    if N.eqb colon ":"%char then
                      match read_value fuel' rest' with
                      | None => None
                      | Some (v, rest'') =>
                          match skip_ws rest'' with
                          | String c' r =>
                              if N.eqb c' ","%char
                              then read_members fuel' r (set key v acc)
                              else if N.eqb c' "}"%char
                              then Some (JDict (set key v acc), r)
                              else None
                          | EmptyString => None
                          end
                      end
                    else None
                | EmptyString => None
                end
            end
          else None
      | EmptyString => None
      end
  end.

(** [json.loads(s)]: one value, and only blanks after it.  The length of
    the text bounds the depth of the recursion. *)
Definition loads (s : string) : option json :=
  match read_value (S (Str.length s)) s with
  | Some (v, rest) =>
      match skip_ws rest with
      | EmptyString => Some v
      | _ => None
      end
  | None => None
  end.

End JsonRead.

(** What the two replacements of [escape_item] make of one character. *)
Definition escaped_char (c : char) : string :=
  if N.eqb c bs then String bs (chr bs)
  else if N.eqb c dq then String bs (chr dq)
  else chr c.

(** ** Shapes of a record *)

Module Shape.

Definition nested_keys : list string :=
  [ "classification"; "sourceInfo"; "properties" ].

Definition array_keys : list string := [ "options"; "options_hi"; "tags" ].

(** The sub-fields the row builder reads from a nested mapping; each goes
    to the column of the same name. *)
Definition sub_fields (outer : string) : list string :=
  if Str.eqb outer "classification" then [ "subject"; "topic"; "subTopic" ]
  else if Str.eqb outer "sourceInfo"
       then [ "examName"; "examYear"; "examDateShift" ]
  else if Str.eqb outer "properties" then [ "difficulty"; "questionType" ]
  else [].

Definition is_dict (v : json) : bool :=
  match v with JDict _ => true | _ => false end.

(** A value the encoder takes without raising: falsy, or iterable. *)
Definition encodable (v : json) : bool :=
  negb (Py.truthy v)
  || match v with JList _ | JStr _ | JDict _ => true | _ => false end.

Definition absent_or (p : json -> bool) (d : dict) (key : string) : bool :=
  match Dict.lookup key d with
  | None => true
  | Some v => p v
  end.

(** The fields of the record, when present, have a shape the row builder
    accepts: the nested mappings are mappings, the array fields are falsy
    or iterable. *)
Definition well_shaped (d : dict) : bool :=
  forallb (absent_or encodable d) array_keys
  && forallb (absent_or is_dict d) nested_keys.



(** The sub-field of a nested mapping that is absent or a mapping. *)
Definition sub_field (d : dict) (outer inner : string) : json :=
  match Dict.get outer d (JDict []) with
  | JDict m => Dict.get inner m JNull
  | _ => JNull
  end.

Section Rows.

Context {L : Library}.

(** The array literal of a field that is absent, falsy or iterable. *)
Definition literal (d : dict) (key : string) : string :=
  match format_pg_array_correctly (Dict.get key d (JList [])) with
  | Ok s => s
  | Raise _ => "{}"
  end.

(** The row of a well-shaped record, field by field. *)
Definition row_of (d : dict) : dict :=
  [ ("v1_id", Dict.get "id" d JNull);
    ("subject", sub_field d "classification" "subject");
    ("topic", sub_field d "classification" "topic");
    ("subTopic", sub_field d "classification" "subTopic");
    ("examName", sub_field d "sourceInfo" "examName");
    ("examYear", sub_field d "sourceInfo" "examYear");
    ("examDateShift", sub_field d "sourceInfo" "examDateShift");
    ("difficulty", sub_field d "properties" "difficulty");
    ("questionType", sub_field d "properties" "questionType");
    ("question", Dict.get "question" d JNull);
    ("question_hi", Dict.get "question_hi" d JNull);
    ("options", JStr (literal d "options"));
    ("options_hi", JStr (literal d "options_hi"));
    ("correct", Dict.get "correct" d JNull);
    ("tags", JStr (literal d "tags"));
    ("explanation", JStr (Json.dumps (Dict.get "explanation" d (JDict [])))) ].

(** The cells of that row can be written: none holds a surrogate. *)
Definition writable (d : dict) : bool :=
  forallb Codec.can_encode (map cell_text (map snd (row_of d))).

(** The record goes to the output: its row is built and written. *)
Definition converts (d : dict) : bool := well_shaped d && writable d.

End Rows.

End Shape.

(** ** Error lines *)

(** [line] is the line the loop prints for the record [d], whose [try]
    block raises. *)
Definition reported {L : Library} (d : dict) (line : string) : Prop :=
  exists e : exn,
    attempt (JDict d) = Raise e
    /\ line
       = "Error processing question " ++ Py.str (Dict.get "id" d JNull)
           ++ ": " ++ Py.str_exn e.

(** ** Sample inputs *)

Module Sample.

Fixpoint of_chars (l : list char) : string :=
  match l with
  | [] => EmptyString
  | c :: l' => String c (of_chars l')
  end.

(** The string a, double quote, b. *)
Definition a_quote_b : string := of_chars [ "a"; dq; "b" ]%char.

(** The string c, backslash, d. *)
Definition c_backslash_d : string := of_chars [ "c"; bs; "d" ]%char.

(** The literal expected for those two: an opening brace; a, backslash,
    double quote, b between double quotes; a comma; c, backslash,
    backslash, d between double quotes; a closing brace. *)
Definition expected_literal : string :=
  of_chars [ "{"; dq; "a"; bs; dq; "b"; dq; ",";
             dq; "c"; bs; bs; "d"; dq; "}" ]%char.

(** The literal of the two elements 1 and x: an opening brace, 1 between
    double quotes, a comma, x between double quotes, a closing brace. *)
Definition one_x_literal : string :=
  of_chars [ "{"; dq; "1"; dq; ","; dq; "x"; dq; "}" ]%char.

(** The escaping with its two replacements in the other order. *)
Definition escape_item_swapped (item_str : string) : string :=
  PyStr.replace bs (String bs (chr bs))
    (PyStr.replace dq (String bs (chr dq)) item_str).

(** The object with the one key x bound to 1. *)
Definition x_is_1 : json := JDict [ ("x", JInt 1) ].

(** A record with all its fields. *)
Definition full : dict :=
  [ ("id", JStr "Q1");
    ("classification",
     JDict [ ("subject", JStr "History"); ("topic", JStr "Medieval");
             ("subTopic", JStr "Delhi Sultanate") ]);
    ("sourceInfo",
     JDict [ ("examName", JStr "CGL"); ("examYear", JInt 2023);
             ("examDateShift", JStr "Shift 1") ]);
    ("properties",
     JDict [ ("difficulty", JStr "Easy"); ("questionType", JStr "MCQ") ]);
    ("question", JStr "Who?");
    ("question_hi", JStr "Kaun?");
    ("options", JList [ JStr "A"; JStr "B" ]);
    ("options_hi", JList [ JStr "A"; JStr "B" ]);
    ("correct", JStr "A");
    ("tags", JList [ JStr "history" ]);
    ("explanation", x_is_1) ].

(** A record with an identifier and nothing else. *)
Definition bare : dict := [ ("id", JInt 7) ].

(** A record whose [sourceInfo] is null. *)
Definition null_source : dict := [ ("id", JInt 2); ("sourceInfo", JNull) ].

(** A record whose [correct] is a nested object, and without the other
    fields. *)
Definition nested_correct : dict :=
  [ ("id", JInt 4); ("correct", JDict [ ("a", JInt 1) ]) ].

(** A record whose [classification] has a subject and nothing else. *)
Definition partial : dict :=
  [ ("id", JInt 5); ("classification", JDict [ ("subject", JStr "History") ]) ].

(** A record whose [explanation] has a line feed and the character of
    code 233 in a text. *)
Definition accented : dict :=
  [ ("id", JInt 6);
    ("explanation",
     JDict [ ("text", JStr (of_chars [ "a"; lf; "233" ]%char)) ]) ].

(** A record whose [explanation] is null. *)
Definition null_explanation : dict :=
  [ ("id", JInt 3); ("explanation", JNull) ].

(** The string of the one surrogate of code D800. *)
Definition lone_surrogate : string := of_chars [ 55296%N ].

(** A record whose [sourceInfo] is null and whose identifier is a lone
    surrogate. *)
Definition null_source_surrogate_id : dict :=
  [ ("id", JStr lone_surrogate); ("sourceInfo", JNull) ].

(** A well-shaped record whose [question] is a lone surrogate. *)
Definition surrogate_question : dict :=
  [ ("id", JInt 8); ("question", JStr lone_surrogate) ].

(** The float 1.5. *)
Definition one_and_a_half : json :=
  JFloat (Float.Finite [ Float.F1; Float.FDot; Float.F5 ]).

(** A library for the samples.  Its table of printable characters agrees
    with Python below code 256 and on the surrogates, which are the
    characters of the samples; its message for a record that cannot be
    written is the message of the encoder for the cells joined by commas. *)
Definition library : Library :=
  {| isprintable :=
       fun c =>
         if (c <? 161)%N then false
         else if (c <? 256)%N then negb (c =? 173)%N
         else negb (is_surrogate c);
     csv_error := fun texts => Codec.error_message (PyStr.join "," texts) |}.

End Sample.

(** * Properties *)

(** ** Strings *)

Lemma append_assoc (a b c : string) : (a ++ b) ++ c = a ++ (b ++ c).
Proof.
  induction a as [|x a IH]; simpl; [reflexivity | now rewrite IH].
Qed.

Lemma append_nil_r (a : string) : a ++ EmptyString = a.
Proof.
  induction a as [|x a IH]; simpl; [reflexivity | now rewrite IH].
Qed.

Lemma replace_app (old : char) (new a b : string) :
  PyStr.replace old new (a ++ b)
  = PyStr.replace old new a ++ PyStr.replace old new b.
Proof.
  induction a as [|x a IH]; simpl; [reflexivity|].
  destruct (N.eqb x old); simpl; rewrite IH;
    [now rewrite append_assoc | reflexivity].
Qed.

(** ** The encoder, one character at a time *)

Lemma escape_item_cons (c : char) (s : string) :
  escape_item (String c s) = escaped_char c ++ escape_item s.
Proof.
  unfold escape_item, escaped_char; simpl.
  destruct (N.eqb c bs) eqn:Hbs.
  - reflexivity.
  - simpl. destruct (N.eqb c dq); reflexivity.
Qed.

Section Properties.

Context {L : Library}.

Lemma format_loop_spec (items : list json) (acc : list string) :
  format_loop items acc = (acc ++ map format_item items)%list.
Proof.
  revert acc; induction items as [|x items IH]; intros acc; simpl.
  - now rewrite app_nil_r.
  - rewrite IH, <- app_assoc. reflexivity.
Qed.

(** ** The array literal parses back *)

Section RoundTrip.

Import PgArray.

Lemma parse_quoted (s cur : string) (acc : list string) (rest : string) :
  parse_from (Quoted cur) acc (escape_item s ++ String dq rest)
  = parse_from AfterElement (acc ++ [cur ++ s]) rest.
Proof.
  revert cur; induction s as [|c s IH]; intros cur.
  - simpl. now rewrite append_nil_r.
  - rewrite escape_item_cons. unfold escaped_char.
    replace (cur ++ String c s) with ((cur ++ chr c) ++ s)
      by (now rewrite append_assoc).
    destruct (N.eqb c bs) eqn:Hbs.
    + apply N.eqb_eq in Hbs; subst c. simpl. apply IH.
    + destruct (N.eqb c dq) eqn:Hdq.
      * apply N.eqb_eq in Hdq; subst c. simpl. apply IH.
      * simpl. rewrite Hbs, Hdq. apply IH.
Qed.

Lemma parse_element (m : mode) (s : string) (acc : list string)
    (rest : string) :
  m = Opened \/ m = AfterComma ->
  parse_from m acc (format_item (JStr s) ++ rest)
  = parse_from AfterElement (acc ++ [s]) rest.
Proof.
  intros Hm. unfold format_item; simpl Py.str.
  change (String dq (escape_item s ++ chr dq) ++ rest)
    with (String dq ((escape_item s ++ chr dq) ++ rest)).
  rewrite append_assoc.
  destruct Hm; subst m; simpl; apply (parse_quoted s EmptyString).
Qed.

Lemma parse_elements (S : list string) :
  forall (m : mode) (s0 : string) (acc : list string),
    m = Opened \/ m = AfterComma ->
    parse_from m acc
      (PyStr.join "," (map format_item (map JStr (s0 :: S))) ++ "}")
    = Some (acc ++ s0 :: S)%list.
Proof.
  induction S as [|s1 S IH]; intros m s0 acc Hm.
  - simpl map. simpl PyStr.join. rewrite parse_element by assumption.
    reflexivity.
  - change (PyStr.join "," (map format_item (map JStr (s0 :: s1 :: S))))
      with (format_item (JStr s0) ++ ","
              ++ PyStr.join "," (map format_item (map JStr (s1 :: S)))).
    rewrite append_assoc, parse_element by assumption.
    change (("," ++ PyStr.join "," (map format_item (map JStr (s1 :: S))))
              ++ "}")
      with (String ","%char
              (PyStr.join "," (map format_item (map JStr (s1 :: S))) ++ "}")).
    cbn [parse_from]. change (N.eqb ","%char ","%char) with true. cbv iota.
    rewrite IH by (now right).
    now rewrite <- app_assoc.
Qed.

End RoundTrip.

(** C2. For every sequence S of strings, the array literal the encoder
    makes of S is read back by the array-literal parser of the database,
    which undoes the escaping of backslashes and double quotes, as a
    sequence equal to S. *)
Theorem array_literal_round_trip (S : list string) :
  exists literal : string,
    format_pg_array_correctly (JList (map JStr S)) = Ok literal
    /\ PgArray.parse literal = Some S.
Proof.
  destruct S as [|s0 S].
  - exists "{}". split; reflexivity.
  - eexists. split.
    + unfold format_pg_array_correctly. simpl. reflexivity.
    + rewrite format_loop_spec. simpl app.
      unfold PgArray.parse. cbn [PgArray.parse_from Str.append].
      change (N.eqb "{"%char "{"%char) with true. cbv iota.
      apply (parse_elements S PgArray.Opened s0 []). now left.
Qed.

(** ** The row builder on a mapping *)

Section RowBuilder.

Import Shape.

Variable d : dict.

Lemma get_dict (key : string) (default : json) :
  Py.get (JDict d) key default = Ok (Dict.get key d default).
Proof. reflexivity. Qed.

Lemma encode_explanation_dict :
  encode_explanation (JDict d)
  = Ok (Json.dumps (Dict.get "explanation" d (JDict []))).
Proof. reflexivity. Qed.

Lemma format_falsy (v : json) :
  Py.truthy v = false -> format_pg_array_correctly v = Ok "{}".
Proof.
  intros H. unfold format_pg_array_correctly. now rewrite H.
Qed.

Lemma format_encodable (v : json) :
  encodable v = true ->
  exists s, format_pg_array_correctly v = Ok s.
Proof.
  unfold encodable, format_pg_array_correctly. intros H.
  destruct (Py.truthy v); simpl in *; [|eauto].
  destruct v; try discriminate; simpl; eauto.
Qed.

Lemma format_not_encodable (v : json) :
  encodable v = false ->
  format_pg_array_correctly v
  = Raise (TypeError_not_iterable (Py.type_name v)).
Proof.
  unfold encodable, format_pg_array_correctly. intros H.
  destruct (Py.truthy v); simpl in *; [|discriminate].
  destruct v; try discriminate; reflexivity.
Qed.

Lemma array_field_ok (key : string) :
  absent_or encodable d key = true ->
  format_pg_array_correctly (Dict.get key d (JList []))
  = Ok (literal d key).
Proof.
  unfold absent_or, literal, Dict.get. intros H.
  destruct (Dict.lookup key d) as [v|]; [|reflexivity].
  destruct (format_encodable v H) as [s Hs]. now rewrite Hs.
Qed.

Lemma array_field_raises (key : string) :
  absent_or encodable d key = false ->
  exists e, format_pg_array_correctly (Dict.get key d (JList [])) = Raise e.
Proof.
  unfold absent_or, Dict.get. intros H.
  destruct (Dict.lookup key d) as [v|]; [|discriminate].
  eexists. now apply format_not_encodable.
Qed.

Lemma nested_get_absent (outer inner : string) :
  Dict.lookup outer d = None ->
  nested_get (JDict d) outer inner = Ok JNull.
Proof.
  intros H. unfold nested_get. rewrite get_dict. unfold Dict.get.
  rewrite H. reflexivity.
Qed.

Lemma nested_get_ok (outer inner : string) :
  absent_or is_dict d outer = true ->
  nested_get (JDict d) outer inner = Ok (sub_field d outer inner).
Proof.
  unfold absent_or, nested_get, sub_field. rewrite get_dict.
  unfold Dict.get.
  destruct (Dict.lookup outer d) as [v|]; [|reflexivity].
  destruct v; try discriminate. reflexivity.
Qed.

Lemma nested_get_raises (outer inner : string) :
  absent_or is_dict d outer = false ->
  nested_get (JDict d) outer inner
  = Raise (AttributeError (Py.type_name (Dict.get outer d (JDict []))) "get").
Proof.
  unfold absent_or, nested_get. rewrite get_dict. unfold Dict.get.
  destruct (Dict.lookup outer d) as [v|]; [|discriminate].
  destruct v; try discriminate; reflexivity.
Qed.


(** A well-shaped record builds its row. *)
Lemma build_row_ok :
  well_shaped d = true -> build_row (JDict d) = Ok (row_of d).
Proof.
  unfold well_shaped. cbn [forallb array_keys nested_keys].
  rewrite !andb_true_iff.
  intros [(Ho & Hoh & Ht & _) (Hc & Hs & Hp & _)].
  unfold build_row.
  rewrite !get_dict, encode_explanation_dict. cbn [bind].
  rewrite !array_field_ok by assumption. cbn [bind].
  rewrite !nested_get_ok by assumption. cbn [bind].
  reflexivity.
Qed.

(** A record that is not well-shaped raises. *)
Lemma build_row_raises :
  well_shaped d = false -> exists e, build_row (JDict d) = Raise e.
Proof.
  unfold well_shaped. cbn [forallb array_keys nested_keys].
  intros H. unfold build_row.
  rewrite !get_dict, encode_explanation_dict. cbn [bind].
  destruct (absent_or encodable d "options") eqn:Ho;
    [rewrite (array_field_ok _ Ho); cbn [bind]
    |destruct (array_field_raises _ Ho) as [e ->]; now exists e].
  destruct (absent_or encodable d "options_hi") eqn:Hoh;
    [rewrite (array_field_ok _ Hoh); cbn [bind]
    |destruct (array_field_raises _ Hoh) as [e ->]; now exists e].
  destruct (absent_or encodable d "tags") eqn:Ht;
    [rewrite (array_field_ok _ Ht); cbn [bind]
    |destruct (array_field_raises _ Ht) as [e ->]; now exists e].
  destruct (absent_or is_dict d "classification") eqn:Hc;
    [rewrite !(nested_get_ok _ _ Hc); cbn [bind]
    |rewrite (nested_get_raises _ _ Hc); cbn [bind]; eauto].
  destruct (absent_or is_dict d "sourceInfo") eqn:Hs;
    [rewrite !(nested_get_ok _ _ Hs); cbn [bind]
    |rewrite (nested_get_raises _ _ Hs); cbn [bind]; eauto].
  destruct (absent_or is_dict d "properties") eqn:Hp;
    [discriminate
    |rewrite (nested_get_raises _ _ Hp); cbn [bind]; eauto].
Qed.

Lemma project_ok :
  well_shaped d = true ->
  project (JDict d) = Ok (map snd (row_of d)).
Proof.
  intros H. unfold project. rewrite (build_row_ok H). reflexivity.
Qed.

Lemma project_raises :
  well_shaped d = false -> exists e, project (JDict d) = Raise e.
Proof.
  intros H. destruct (build_row_raises H) as [e He].
  exists e. unfold project. now rewrite He.
Qed.

End RowBuilder.

(** Every row that is written has its sixteen cells. *)
Lemma project_length (q : json) (cells : list json) :
  project q = Ok cells -> length cells = 16.
Proof.
  unfold project. destruct (build_row q) as [row|e]; [|discriminate].
  cbn [bind]. unfold DictWriter.dict_to_list.
  destruct (filter _ _); [|discriminate].
  intros [= <-]. reflexivity.
Qed.

(** ** The encoder on small and on falsy inputs *)

(** C4. The encoder escapes the backslashes of an element before its
    double quotes: character by character, a backslash becomes two
    backslashes, a double quote becomes a backslash and a double quote, and
    the backslash that escapes a double quote is not escaped again.  For the
    two strings a, double quote, b and c, backslash, d the literal is exactly
    the expected one, which the two replacements in the other order miss. *)
Theorem backslashes_escaped_before_quotes :
  (forall (c : char) (s : string),
      escape_item (String c s) = escaped_char c ++ escape_item s)
  /\ format_pg_array_correctly
       (JList [ JStr Sample.a_quote_b; JStr Sample.c_backslash_d ])
     = Ok Sample.expected_literal
  /\ Sample.escape_item_swapped Sample.a_quote_b
     <> escape_item Sample.a_quote_b.
Proof.
  split; [exact escape_item_cons|].
  split; [reflexivity|].
  vm_compute. discriminate.
Qed.

(** C5. The encoder returns the empty array literal for the empty sequence
    and for null. *)
Theorem empty_or_null_gives_empty_literal :
  format_pg_array_correctly (JList []) = Ok "{}"
  /\ format_pg_array_correctly JNull = Ok "{}".
Proof. split; reflexivity. Qed.

(** C10. The encoder returns the empty array literal for every falsy
    input, without raising: for the number 0, the empty string, false and
    the empty mapping as for the empty sequence and null. *)
Theorem falsy_gives_empty_literal :
  (forall v : json,
      Py.truthy v = false -> format_pg_array_correctly v = Ok "{}")
  /\ format_pg_array_correctly (JInt 0) = Ok "{}"
  /\ format_pg_array_correctly (JStr EmptyString) = Ok "{}"
  /\ format_pg_array_correctly (JBool false) = Ok "{}"
  /\ format_pg_array_correctly (JDict []) = Ok "{}".
Proof.
  split; [exact format_falsy|]. repeat split; reflexivity.
Qed.

(** ** The nested-object encoder *)

(** C3, amended. The nested-object encoder returns the empty object for a
    record without [explanation], the JSON null for a record whose
    [explanation] is null, and for the mapping of x to 1 a JSON text that
    parses back to that mapping. *)
Theorem explanation_encoding (d : dict) :
  (Dict.lookup "explanation" d = None ->
   encode_explanation (JDict d) = Ok "{}")
  /\ (Dict.lookup "explanation" d = Some JNull ->
      encode_explanation (JDict d) = Ok "null")
  /\ (Dict.lookup "explanation" d = Some Sample.x_is_1 ->
      exists text : string,
        encode_explanation (JDict d) = Ok text
        /\ JsonRead.loads text = Some Sample.x_is_1).
Proof.
  rewrite encode_explanation_dict. unfold Dict.get.
  repeat split; intros ->; [reflexivity | reflexivity |].
  eexists; split; reflexivity.
Qed.

(** ** Missing and null nested mappings *)

Section NestedMappings.

Import Shape.

Variable d : dict.

Lemma well_shaped_of_row (row : dict) :
  build_row (JDict d) = Ok row -> well_shaped d = true /\ row = row_of d.
Proof.
  intros H. destruct (well_shaped d) eqn:Hw.
  - rewrite (build_row_ok d Hw) in H. now injection H as <-.
  - destruct (build_row_raises d Hw) as [e He]. congruence.
Qed.


Lemma sub_field_absent (outer inner : string) :
  Dict.lookup outer d = None -> sub_field d outer inner = JNull.
Proof.
  intros H. unfold sub_field, Dict.get. now rewrite H.
Qed.

Lemma row_of_sub_fields (outer inner : string) :
  In outer nested_keys ->
  In inner (sub_fields outer) ->
  Dict.lookup inner (row_of d) = Some (sub_field d outer inner).
Proof.
  intros Ho Hi.
  destruct Ho as [<-|[<-|[<-|[]]]]; cbn in Hi;
    repeat (destruct Hi as [<-|Hi]; [reflexivity|]); destruct Hi.
Qed.

End NestedMappings.

(** C6. For every record in which the [classification], [sourceInfo] or
    [properties] key is absent, the lookups of its sub-fields do not raise
    and give null; every row the row builder makes of the record has null in
    the columns of those sub-fields; and the row builder does make a row, the
    fields that are present having the shape it accepts. *)
Theorem missing_nested_mapping_gives_nulls (d : dict) (outer : string) :
  In outer Shape.nested_keys ->
  Dict.lookup outer d = None ->
  (forall inner : string, nested_get (JDict d) outer inner = Ok JNull)
  /\ (forall row : dict,
         build_row (JDict d) = Ok row ->
         forall inner : string,
           In inner (Shape.sub_fields outer) ->
           Dict.lookup inner row = Some JNull)
  /\ (Shape.well_shaped d = true ->
      exists row : dict, build_row (JDict d) = Ok row).
Proof.
  intros Hin Habs. split; [|split].
  - intros inner. now apply nested_get_absent.
  - intros row Hrow inner Hinner.
    destruct (well_shaped_of_row d row Hrow) as [_ ->].
    rewrite (row_of_sub_fields d outer inner Hin Hinner).
    now rewrite sub_field_absent.
  - intros Hw. exists (Shape.row_of d). now apply build_row_ok.
Qed.

Section NullMappings.

Import Shape.

Variable d : dict.



End NullMappings.

(** ** Texts that can be encoded *)

Section Encodable.

Import Measure.

Lemma all_chars_app (p : char -> bool) (a b : string) :
  all_chars p (a ++ b) = all_chars p a && all_chars p b.
Proof.
  induction a as [|c a IH]; simpl; [reflexivity|].
  now rewrite IH, andb_assoc.
Qed.

Lemma all_chars_weaken (p q : char -> bool) (s : string) :
  (forall c, p c = true -> q c = true) ->
  all_chars p s = true -> all_chars q s = true.
Proof.
  intros Hpq. induction s as [|c s IH]; [reflexivity|].
  cbn [all_chars]. rewrite !andb_true_iff. intros [Hc Hs].
  split; [now apply Hpq | now apply IH].
Qed.

Lemma printable_ascii_not_surrogate (c : char) :
  printable_ascii c = true -> negb (is_surrogate c) = true.
Proof.
  unfold printable_ascii, is_surrogate.
  rewrite andb_true_iff, negb_true_iff, andb_false_iff.
  rewrite !N.leb_le, N.leb_gt. lia.
Qed.

Lemma ascii_can_encode (s : string) :
  all_chars printable_ascii s = true -> Codec.can_encode s = true.
Proof.
  apply all_chars_weaken. exact printable_ascii_not_surrogate.
Qed.

Lemma can_encode_app (a b : string) :
  Codec.can_encode (a ++ b) = Codec.can_encode a && Codec.can_encode b.
Proof. apply all_chars_app. Qed.

Lemma of_uint_ascii (u : uint) :
  all_chars printable_ascii (PyStr.of_uint u) = true.
Proof.
  induction u; simpl; try exact IHu; reflexivity.
Qed.

Lemma of_Z_ascii (n : Z) :
  all_chars printable_ascii (PyStr.of_Z n) = true.
Proof.
  unfold PyStr.of_Z, PyStr.of_digits.
  destruct (Z.to_int n) as [u|u].
  - destruct u; try reflexivity; apply of_uint_ascii.
  - cbn [all_chars]. destruct u; try reflexivity; apply of_uint_ascii.
Qed.

Lemma of_N_ascii (n : N) :
  all_chars printable_ascii (PyStr.of_N n) = true.
Proof. apply of_Z_ascii. Qed.

Lemma hex_digit_ascii (n : nat) : printable_ascii (hex_digit n) = true.
Proof.
  do 15 (destruct n as [|n]; [reflexivity|]). reflexivity.
Qed.

Lemma hex_onto_ascii (width : nat) :
  forall (n : N) (acc : string),
    all_chars printable_ascii acc = true ->
    all_chars printable_ascii (hex_onto width n acc) = true.
Proof.
  induction width as [|width IH]; intros n acc Hacc; [exact Hacc|].
  cbn [hex_onto]. apply IH. cbn [all_chars].
  now rewrite hex_digit_ascii, Hacc.
Qed.

Lemma hex_ascii (width : nat) (n : N) :
  all_chars printable_ascii (hex width n) = true.
Proof. now apply hex_onto_ascii. Qed.

End Encodable.

(** Splits [all_chars] over the concatenations of the goal, evaluates it
    on the literals, and rewrites it on numbers. *)
Ltac split_chars :=
  repeat rewrite all_chars_app;
  repeat match goal with
         | |- context [Measure.all_chars ?p ?s] =>
             let v := eval vm_compute in (Measure.all_chars p s) in
             match v with
             | true => change (Measure.all_chars p s) with true
             end
         end;
  rewrite ?of_Z_ascii, ?of_N_ascii, ?hex_ascii;
  cbn [andb].

Lemma error_message_ascii (s : string) :
  Measure.all_chars Measure.printable_ascii (Codec.error_message s) = true.
Proof.
  unfold Codec.error_message.
  destruct (Codec.first_surrogate s 0) as [[[start c] rest]|]; [|reflexivity].
  destruct (Codec.surrogate_run rest =? 0)%N; split_chars; reflexivity.
Qed.

Lemma success_line_ascii (n : nat) :
  Measure.all_chars Measure.printable_ascii (success_line n) = true.
Proof. unfold success_line. split_chars. reflexivity. Qed.

Lemma type_name_ascii (q : json) :
  Measure.all_chars Measure.printable_ascii (Py.type_name q) = true.
Proof. destruct q; reflexivity. Qed.

(** The exceptions that leave the loop print on one line that can be
    encoded. *)
Lemma unexpected_attribute_ascii (q : json) :
  Measure.all_chars Measure.printable_ascii
    (unexpected_line (AttributeError (Py.type_name q) "get")) = true.
Proof.
  unfold unexpected_line. cbn [Py.str_exn]. split_chars.
  now rewrite type_name_ascii.
Qed.

Lemma unexpected_encode_ascii (line : string) :
  Measure.all_chars Measure.printable_ascii
    (unexpected_line (UnicodeEncodeError (Codec.error_message line))) = true.
Proof.
  unfold unexpected_line. cbn [Py.str_exn]. split_chars.
  now rewrite error_message_ascii.
Qed.

(** ** Printing and writing *)

Lemma emit_ok (line : string) (out : list string) :
  Codec.can_encode line = true -> emit line out = Ok (out ++ [line])%list.
Proof. intros H. unfold emit. now rewrite H. Qed.

Lemma emit_raises (line : string) (out : list string) :
  Codec.can_encode line = false ->
  emit line out = Raise (UnicodeEncodeError (Codec.error_message line)).
Proof. intros H. unfold emit. now rewrite H. Qed.

Lemma print_ok (line : string) (st : state) :
  Codec.can_encode line = true ->
  print line st = Ok (mkState (stdout st ++ [line])%list (f_out st) (count st)).
Proof. intros H. unfold print. now rewrite (emit_ok _ _ H). Qed.

Lemma print_raises (line : string) (st : state) :
  Codec.can_encode line = false ->
  print line st = Raise (UnicodeEncodeError (Codec.error_message line)).
Proof. intros H. unfold print. now rewrite (emit_raises _ _ H). Qed.

(** The [try] block of the loop in terms of [attempt]. *)
Lemma try_record_attempt (q : json) (st : state) :
  try_record q st
  = match attempt q with
    | Ok cells =>
        Ok (mkState (stdout st) (f_out st ++ [cells])%list (S (count st)))
    | Raise e => Raise e
    end.
Proof.
  unfold try_record, attempt, writerow.
  destruct (project q) as [cells|e]; cbn [bind]; [|reflexivity].
  destruct (encode_record cells) as [[]|e]; reflexivity.
Qed.

Lemma attempt_project (q : json) (cells : list json) :
  attempt q = Ok cells -> project q = Ok cells.
Proof.
  unfold attempt. destruct (project q) as [c|e]; cbn [bind]; [|discriminate].
  destruct (encode_record c) as [[]|e]; cbn [bind]; [|discriminate].
  now intros [= <-].
Qed.

Lemma attempt_length (q : json) (cells : list json) :
  attempt q = Ok cells -> length cells = 16.
Proof. intros H. apply (project_length q). now apply attempt_project. Qed.

Lemma attempt_not_a_mapping (q : json) :
  Shape.is_dict q = false ->
  attempt q = Raise (AttributeError (Py.type_name q) "get").
Proof.
  intros H. destruct q; try discriminate; reflexivity.
Qed.

Section Attempt.

Import Shape.

Variable d : dict.

Lemma attempt_converts :
  converts d = true -> attempt (JDict d) = Ok (map snd (row_of d)).
Proof.
  unfold converts. rewrite andb_true_iff. intros [Hw Hc].
  unfold attempt. rewrite (project_ok d Hw). cbn [bind].
  unfold encode_record. unfold writable in Hc. now rewrite Hc.
Qed.

Lemma attempt_unwritable :
  well_shaped d = true ->
  writable d = false ->
  attempt (JDict d)
  = Raise (UnicodeEncodeError
             (csv_error (map cell_text (map snd (row_of d))))).
Proof.
  intros Hw Hc. unfold attempt. rewrite (project_ok d Hw). cbn [bind].
  unfold encode_record. unfold writable in Hc. now rewrite Hc.
Qed.

Lemma attempt_not_converts :
  converts d = false -> exists e, attempt (JDict d) = Raise e.
Proof.
  unfold converts. destruct (well_shaped d) eqn:Hw; cbn [andb].
  - intros Hc. eexists. now apply attempt_unwritable.
  - intros _. destruct (project_raises d Hw) as [e He].
    exists e. unfold attempt. now rewrite He.
Qed.


End Attempt.

(** ** The loop *)

Lemma process_ok (q : json) (cells : list json) (st : state) :
  attempt q = Ok cells ->
  process q st
  = Ok (mkState (stdout st) (f_out st ++ [cells])%list (S (count st))).
Proof.
  intros H. unfold process. now rewrite try_record_attempt, H.
Qed.

(** A mapping whose [try] block raises is reported and skipped when its
    line can be printed: a line on the console, no row, the counter as it
    was. *)
Lemma process_raises (d : dict) (e : exn) (st : state) :
  attempt (JDict d) = Raise e ->
  Codec.can_encode (error_line (Dict.get "id" d JNull) e) = true ->
  process (JDict d) st
  = Ok (mkState (stdout st ++ [error_line (Dict.get "id" d JNull) e])%list
                (f_out st) (count st)).
Proof.
  intros H Hc. unfold process. rewrite try_record_attempt, H.
  cbn [Py.get bind]. now apply print_ok.
Qed.

(** When the line cannot be printed, the handler raises in its turn. *)
Lemma process_unprintable (d : dict) (e : exn) (st : state) :
  attempt (JDict d) = Raise e ->
  Codec.can_encode (error_line (Dict.get "id" d JNull) e) = false ->
  process (JDict d) st
  = Raise (UnicodeEncodeError
             (Codec.error_message (error_line (Dict.get "id" d JNull) e))).
Proof.
  intros H Hc. unfold process. rewrite try_record_attempt, H.
  cbn [Py.get bind]. now apply print_raises.
Qed.

(** An element that is not a mapping ends the loop: the handler itself
    raises. *)
Lemma process_not_a_mapping (q : json) (st : state) :
  Shape.is_dict q = false ->
  process q st = Raise (AttributeError (Py.type_name q) "get").
Proof.
  intros H. unfold process.
  rewrite try_record_attempt, (attempt_not_a_mapping q H).
  destruct q; try discriminate; reflexivity.
Qed.

(** The exceptions that leave the loop. *)
Lemma process_exception (q : json) (st : state) (e : exn) :
  process q st = Raise e ->
  e = AttributeError (Py.type_name q) "get"
  \/ exists line : string, e = UnicodeEncodeError (Codec.error_message line).
Proof.
  unfold process. rewrite try_record_attempt.
  destruct (attempt q) as [cells|e0]; [discriminate|].
  destruct q; cbn [Py.get bind]; try (intros [= <-]; now left).
  unfold print, emit.
  destruct (Codec.can_encode _); cbn [bind]; [discriminate|].
  intros [= <-]. right. eauto.
Qed.

Lemma for_each_app (l1 l2 : list json) (st : state) :
  for_each (l1 ++ l2)%list st
  = match for_each l1 st with
    | (st', None) => for_each l2 st'
    | (st', Some e) => (st', Some e)
    end.
Proof.
  revert st; induction l1 as [|q l1 IH]; intros st; simpl; [reflexivity|].
  destruct (process q st) as [st'|e]; [apply IH | reflexivity].
Qed.

Lemma for_each_all_ok (qs : list json) (rows : csv_file) :
  Forall2 (fun q cells => attempt q = Ok cells) qs rows ->
  forall st : state,
    for_each qs st
    = (mkState (stdout st) (f_out st ++ rows)%list
               (count st + length rows), None).
Proof.
  induction 1 as [|q cells qs rows Hq _ IH]; intros st; simpl.
  - rewrite app_nil_r, Nat.add_0_r. now destruct st.
  - rewrite (process_ok q cells st Hq), IH. simpl.
    rewrite <- app_assoc, Nat.add_succ_r. reflexivity.
Qed.

(** What the loop keeps, wherever it ends: it only adds rows, each of
    sixteen cells, and error lines, and the counter moves with the rows. *)
Lemma for_each_invariant (qs : list json) :
  forall st : state,
  exists (rows : csv_file) (lines : list string),
    f_out (fst (for_each qs st)) = (f_out st ++ rows)%list
    /\ stdout (fst (for_each qs st)) = (stdout st ++ lines)%list
    /\ count (fst (for_each qs st)) = count st + length rows
    /\ Forall (fun cells => length cells = 16) rows
    /\ Forall (fun line => exists id e, line = error_line id e) lines
    /\ (forall e : exn,
           snd (for_each qs st) = Some e ->
           (exists q : json, e = AttributeError (Py.type_name q) "get")
           \/ exists line : string,
                e = UnicodeEncodeError (Codec.error_message line)).
Proof.
  induction qs as [|q qs IH]; intros st; simpl.
  - exists [], []. rewrite !app_nil_r, Nat.add_0_r.
    repeat split; [constructor | constructor | discriminate].
  - destruct (process q st) as [st1|e1] eqn:Hp.
    + destruct (IH st1) as (rows & lines & Hf & Hs & Hc & Hr & Hl & He).
      unfold process in Hp. rewrite try_record_attempt in Hp.
      destruct (attempt q) as [cells|e] eqn:Hq.
      * injection Hp as <-. exists (cells :: rows), lines.
        rewrite Hf, Hs, Hc. simpl. rewrite <- app_assoc.
        repeat split; [lia | | exact Hl | exact He].
        constructor; [now apply (attempt_length q) | exact Hr].
      * destruct (Py.get q "id" JNull) as [id|e']; [|discriminate].
        cbn [bind] in Hp. unfold print, emit in Hp.
        destruct (Codec.can_encode (error_line id e)); [|discriminate].
        injection Hp as <-. exists rows, (error_line id e :: lines).
        rewrite Hf, Hs, Hc. simpl. rewrite <- app_assoc.
        repeat split; [exact Hr | | exact He].
        constructor; [now exists id, e | exact Hl].
    + exists [], []. simpl. rewrite !app_nil_r, Nat.add_0_r.
      repeat split; [constructor | constructor |].
      intros e [= <-].
      destruct (process_exception q st e1 Hp) as [->|[line ->]]; eauto.
Qed.

Lemma header_written (st : state) :
  (cells <- DictWriter.dict_to_list header (DictWriter.header_dict header) ;;
   writerow cells st)
  = Ok (mkState (stdout st) (f_out st ++ [map JStr header])%list (count st)).
Proof. reflexivity. Qed.

(** ** The run *)

(** The run on a document that was read. *)
Lemma run_document (v : json) :
  run (Document v)
  = match Py.iter v with
    | Raise e =>
        match emit (handle e) [start_line] with
        | Ok out => mkWorld out (Some [map JStr header]) None
        | Raise e' => mkWorld [start_line] (Some [map JStr header]) (Some e')
        end
    | Ok qs =>
        match for_each qs (mkState [start_line] [map JStr header] 0) with
        | (st, None) =>
            mkWorld (stdout st ++ [success_line (count st)])%list
                    (Some (f_out st)) None
        | (st, Some e) =>
            match emit (handle e) (stdout st) with
            | Ok out => mkWorld out (Some (f_out st)) None
            | Raise e' => mkWorld (stdout st) (Some (f_out st)) (Some e')
            end
        end
    end.
Proof.
  unfold run. change (emit start_line []) with (Ok [start_line]).
  unfold try_body. rewrite header_written. cbn [stdout f_out count app].
  destruct (Py.iter v) as [qs|e]; [|reflexivity].
  destruct (for_each qs _) as [st [e|]]; [reflexivity|].
  rewrite (print_ok _ _ (ascii_can_encode _ (success_line_ascii (count st)))).
  reflexivity.
Qed.

Lemma run_array (qs : list json) :
  run (Document (JList qs))
  = match for_each qs (mkState [start_line] [map JStr header] 0) with
    | (st, None) =>
        mkWorld (stdout st ++ [success_line (count st)])%list
                (Some (f_out st)) None
    | (st, Some e) =>
        match emit (handle e) (stdout st) with
        | Ok out => mkWorld out (Some (f_out st)) None
        | Raise e' => mkWorld (stdout st) (Some (f_out st)) (Some e')
        end
    end.
Proof. now rewrite run_document. Qed.

(** ** A null nested mapping *)


(** ** One failing record *)

(** C1, amended. For every input array of N records in which the [try]
    block of record k raises, the error line of record k can be encoded, and
    the other N-1 records are built and written, the program prints the
    error line of record k, its identifier and the text of the error, then
    the completion message with the count N-1, and writes after the header
    exactly the N-1 rows of the other records, in their order in the input,
    each with its sixteen cells: nothing is written for record k. *)
Theorem one_failing_record_is_skipped
    (before after : list json) (dk : dict) (e : exn)
    (rows_before rows_after : csv_file) :
  Forall2 (fun q cells => attempt q = Ok cells) before rows_before ->
  attempt (JDict dk) = Raise e ->
  Codec.can_encode
    ("Error processing question " ++ Py.str (Dict.get "id" dk JNull)
       ++ ": " ++ Py.str_exn e) = true ->
  Forall2 (fun q cells => attempt q = Ok cells) after rows_after ->
  let questions_data := (before ++ JDict dk :: after)%list in
  let N := length questions_data in
  let w := run (Document (JList questions_data)) in
  console w
  = [ "Starting conversion of questions.json with CORRECTED script...";
      "Error processing question " ++ Py.str (Dict.get "id" dk JNull)
        ++ ": " ++ Py.str_exn e;
      "Successfully converted " ++ PyStr.of_Z (Z.of_nat (N - 1))
        ++ " questions to questions_for_supabase.csv"
        ++ " using the correct format." ]
  /\ output w = Some (map JStr header :: rows_before ++ rows_after)%list
  /\ uncaught w = None
  /\ length (rows_before ++ rows_after)%list = N - 1
  /\ Forall (fun cells => length cells = 16)
            (rows_before ++ rows_after)%list.
Proof.
  intros Hb Hk Hc Ha questions_data N w.
  assert (HN : N - 1 = length rows_before + length rows_after).
  { subst N questions_data. rewrite length_app. simpl.
    rewrite (Forall2_length Hb), (Forall2_length Ha). lia. }
  assert (Hrun :
    w = mkWorld [ start_line; error_line (Dict.get "id" dk JNull) e;
                  success_line (N - 1) ]
                (Some (map JStr header :: rows_before ++ rows_after)%list)
                None).
  { subst w questions_data. rewrite run_array, for_each_app.
    rewrite (for_each_all_ok before rows_before Hb). simpl for_each.
    rewrite (process_raises dk e _ Hk Hc).
    rewrite (for_each_all_ok after rows_after Ha).
    cbn [stdout f_out count app Nat.add]. rewrite HN.
    reflexivity. }
  rewrite Hrun. cbn [console output uncaught].
  split; [reflexivity|]. split; [reflexivity|]. split; [reflexivity|]. split.
  - rewrite HN. apply length_app.
  - apply Forall_app. split.
    + clear -Hb. induction Hb; constructor; eauto using attempt_length.
    + clear -Ha. induction Ha; constructor; eauto using attempt_length.
Qed.

(** C7. For every input document whose top-level value is an array, the
    empty array included, the output begins with the header row, which is
    exactly the fixed list of sixteen columns, and the data rows come after
    it. *)
Theorem header_row_comes_first (qs : list json) :
  (exists rows : csv_file,
      output (run (Document (JList qs))) = Some (map JStr header :: rows)
      /\ Forall (fun cells => length cells = 16) rows)
  /\ output (run (Document (JList []))) = Some [ map JStr header ]
  /\ length header = 16
  /\ PyStr.join "," header
     = "v1_id,subject,topic,subTopic,examName,examYear,examDateShift,difficulty,questionType,question,question_hi,options,options_hi,correct,tags,explanation".
Proof.
  split; [|repeat split; reflexivity].
  rewrite run_array.
  destruct (for_each_invariant qs (mkState [start_line] [map JStr header] 0))
    as (rows & lines & Hf & _ & _ & Hlen & _).
  exists rows. split; [|exact Hlen].
  destruct (for_each qs _) as [st [e|]]; cbn [fst] in Hf.
  - destruct (emit (handle e) (stdout st)); cbn [output]; now rewrite Hf.
  - cbn [output]. now rewrite Hf.
Qed.

(** C8. If the input file is not found, the program reports that, the
    output is not opened, so that no row is written and no record is
    processed, and no completion message is printed. *)
Theorem missing_input_is_fatal :
  run Missing = mkWorld [ start_line; not_found_line ] None None
  /\ not_found_line = "Error: questions.json not found."
  /\ forall n : nat, ~ In (success_line n) (console (run Missing)).
Proof.
  split; [reflexivity|]. split; [reflexivity|].
  intros n [H|[H|[]]]; discriminate H.
Qed.

(** ** An element that is not a mapping

    The records of the input are mappings.  On an element of the array that
    is not one, the handler of the loop raises in its turn, and the run ends
    there with the rows written so far. *)

(** The run on an array whose first element is not a mapping. *)
Lemma not_a_mapping_run_cons (q : json) (after : list json) :
  Shape.is_dict q = false ->
  run (Document (JList (q :: after)))
  = mkWorld
      [ start_line;
        unexpected_line (AttributeError (Py.type_name q) "get") ]
      (Some [ map JStr header ]) None.
Proof.
  intros Hq. rewrite run_array. simpl for_each.
  rewrite (process_not_a_mapping q _ Hq). cbn [handle stdout f_out].
  now rewrite (emit_ok _ _ (ascii_can_encode _ (unexpected_attribute_ascii q))).
Qed.

(** X17. If an element of the input array is not a mapping and the
    elements before it are built and written, the run ends at that element:
    the console has the start line and the line of the unexpected attribute
    error, the output has the header and the rows of the elements before, and
    the elements after are not processed. *)
Theorem not_a_mapping_ends_the_run (before after : list json) (q : json)
    (rows_before : csv_file) :
  Forall2 (fun q cells => attempt q = Ok cells) before rows_before ->
  Shape.is_dict q = false ->
  run (Document (JList (before ++ q :: after)%list))
  = mkWorld
      [ "Starting conversion of questions.json with CORRECTED script...";
        "An unexpected error occurred: '" ++ Py.type_name q
          ++ "' object has no attribute 'get'" ]
      (Some (map JStr header :: rows_before)) None.
Proof.
  intros Hb Hq. rewrite run_array, for_each_app.
  rewrite (for_each_all_ok before rows_before Hb). simpl for_each.
  rewrite (process_not_a_mapping q _ Hq). cbn [handle stdout f_out].
  now rewrite (emit_ok _ _ (ascii_can_encode _ (unexpected_attribute_ascii q))).
Qed.

(** * Further properties of the encoder *)

Section EncoderAnyItems.

Import PgArray.

Lemma parse_item (m : mode) (item : json) (acc : list string)
    (rest : string) :
  m = Opened \/ m = AfterComma ->
  parse_from m acc (format_item item ++ rest)
  = parse_from AfterElement (acc ++ [Py.str item]) rest.
Proof.
  intros Hm. unfold format_item.
  change (String dq (escape_item (Py.str item) ++ chr dq) ++ rest)
    with (String dq ((escape_item (Py.str item) ++ chr dq) ++ rest)).
  rewrite append_assoc.
  destruct Hm; subst m; simpl; apply (parse_quoted (Py.str item) EmptyString).
Qed.

Lemma parse_items (items : list json) :
  forall (m : mode) (i0 : json) (acc : list string),
    m = Opened \/ m = AfterComma ->
    parse_from m acc (PyStr.join "," (map format_item (i0 :: items)) ++ "}")
    = Some (acc ++ map Py.str (i0 :: items))%list.
Proof.
  induction items as [|i1 items IH]; intros m i0 acc Hm.
  - simpl map. simpl PyStr.join. rewrite parse_item by assumption.
    reflexivity.
  - change (PyStr.join "," (map format_item (i0 :: i1 :: items)))
      with (format_item i0 ++ ","
              ++ PyStr.join "," (map format_item (i1 :: items))).
    rewrite append_assoc, parse_item by assumption.
    change (("," ++ PyStr.join "," (map format_item (i1 :: items))) ++ "}")
      with (String ","%char
              (PyStr.join "," (map format_item (i1 :: items)) ++ "}")).
    cbn [parse_from]. change (N.eqb ","%char ","%char) with true. cbv iota.
    rewrite IH by (now right).
    now rewrite <- app_assoc.
Qed.

(** The text the encoder builds from the items it iterated over is read
    back as the texts of those items. *)
Lemma literal_text_parses (items : list json) :
  parse ("{" ++ PyStr.join "," (map format_item items) ++ "}")
  = Some (map Py.str items).
Proof.
  destruct items as [|i0 items]; [reflexivity|].
  unfold parse. cbn [parse_from Str.append].
  change (N.eqb "{"%char "{"%char) with true. cbv iota.
  apply (parse_items items Opened i0 []). now left.
Qed.

End EncoderAnyItems.

(** What the encoder returns on a truthy value that can be iterated. *)
Lemma format_of_items (v : json) (items : list json) :
  Py.truthy v = true ->
  Py.iter v = Ok items ->
  format_pg_array_correctly v
  = Ok ("{" ++ PyStr.join "," (map format_item items) ++ "}").
Proof.
  intros Ht Hi. unfold format_pg_array_correctly. rewrite Ht, Hi. simpl.
  now rewrite format_loop_spec.
Qed.

Lemma format_of_list (items : list json) :
  format_pg_array_correctly (JList items)
  = Ok ("{" ++ PyStr.join "," (map format_item items) ++ "}").
Proof.
  destruct items as [|i0 items]; [reflexivity|].
  now apply format_of_items.
Qed.

Lemma str_of_chars (s : string) :
  map Py.str (map JStr (PyStr.chars s)) = PyStr.chars s.
Proof.
  induction s as [|c s IH]; simpl; [reflexivity | now rewrite IH].
Qed.

Lemma str_of_keys (d : dict) :
  map Py.str (map JStr (Dict.keys d)) = Dict.keys d.
Proof.
  unfold Dict.keys. induction d as [|[k v] d IH]; simpl;
    [reflexivity | now rewrite IH].
Qed.

(** X1. The encoder coerces every element of a sequence to text: for a
    list of any values, the literal is read back by the array-literal
    parser as the list of the texts [str(item)], in order. *)
Theorem any_items_round_trip (items : list json) :
  exists literal : string,
    format_pg_array_correctly (JList items) = Ok literal
    /\ PgArray.parse literal = Some (map Py.str items).
Proof.
  eexists. split; [apply format_of_list | apply literal_text_parses].
Qed.

(** X2. Two lists with the same literal have the same element texts: the
    encoder never maps two different sequences of strings to one literal. *)
Theorem literal_determines_texts (a b : list json) (literal : string) :
  format_pg_array_correctly (JList a) = Ok literal ->
  format_pg_array_correctly (JList b) = Ok literal ->
  map Py.str a = map Py.str b.
Proof.
  rewrite !format_of_list. intros [= <-] [= H].
  pose proof (literal_text_parses a) as Ha.
  pose proof (literal_text_parses b) as Hb.
  rewrite H in Hb. rewrite Ha in Hb. now injection Hb.
Qed.

(** X3. A string or a mapping given where a sequence is expected is not
    refused: the string is encoded character by character and the mapping
    key by key, so the literal is read back as the characters of the string,
    or as the keys of the mapping. *)
Theorem strings_and_mappings_are_iterated :
  (forall s : string,
      exists literal : string,
        format_pg_array_correctly (JStr s) = Ok literal
        /\ PgArray.parse literal = Some (PyStr.chars s))
  /\ (forall d : dict,
         exists literal : string,
           format_pg_array_correctly (JDict d) = Ok literal
           /\ PgArray.parse literal = Some (Dict.keys d)).
Proof.
  split.
  - intros [|c s]; [exists "{}"; now split|].
    eexists. split.
    + apply format_of_items; reflexivity.
    + now rewrite literal_text_parses, str_of_chars.
  - intros [|kv d]; [exists "{}"; now split|].
    eexists. split.
    + apply format_of_items; reflexivity.
    + now rewrite literal_text_parses, str_of_keys.
Qed.

(** X4. The encoder raises exactly on a number other than zero, be it an
    integer or a float, and on true, with the type error of a value that
    cannot be iterated; on every other value it returns a literal. *)
Theorem encoder_raises_exactly_on_truthy_scalars :
  (forall n : Z,
      n <> 0%Z ->
      format_pg_array_correctly (JInt n)
      = Raise (TypeError_not_iterable "int"))
  /\ (forall x : Float.pyfloat,
         Float.is_zero x = false ->
         format_pg_array_correctly (JFloat x)
         = Raise (TypeError_not_iterable "float"))
  /\ format_pg_array_correctly (JBool true)
     = Raise (TypeError_not_iterable "bool")
  /\ (forall (v : json) (e : exn),
         format_pg_array_correctly v = Raise e ->
         (exists n : Z,
             n <> 0%Z /\ v = JInt n /\ e = TypeError_not_iterable "int")
         \/ (exists x : Float.pyfloat,
                Float.is_zero x = false /\ v = JFloat x
                /\ e = TypeError_not_iterable "float")
         \/ (v = JBool true /\ e = TypeError_not_iterable "bool")).
Proof.
  split; [|split; [|split]].
  - intros n Hn. unfold format_pg_array_correctly. simpl.
    destruct (Z.eqb_spec n 0); [contradiction | reflexivity].
  - intros x Hx. unfold format_pg_array_correctly. simpl.
    now rewrite Hx.
  - reflexivity.
  - intros v e. unfold format_pg_array_correctly.
    destruct v as [|b|n|x|s|l|d]; simpl.
    + discriminate.
    + destruct b; simpl; [|discriminate]. intros [= <-]. now right; right.
    + destruct (Z.eqb_spec n 0); simpl; [discriminate|].
      intros [= <-]. left. exists n. now repeat split.
    + destruct (Float.is_zero x) eqn:Hx; simpl; [discriminate|].
      intros [= <-]. right; left. exists x. now repeat split.
    + destruct (Str.eqb s EmptyString); simpl; discriminate.
    + destruct l; simpl; discriminate.
    + destruct d; simpl; discriminate.
Qed.

(** ** The escaping of one element *)

Lemma length_append (a b : string) :
  Str.length (a ++ b) = Str.length a + Str.length b.
Proof.
  induction a as [|c a IH]; simpl; [reflexivity | now rewrite IH].
Qed.

Lemma escaped_char_length (c : char) :
  Str.length (escaped_char c)
  = 1 + (if N.eqb c bs || N.eqb c dq then 1 else 0).
Proof.
  unfold escaped_char.
  destruct (N.eqb c bs); [reflexivity|].
  destruct (N.eqb c dq); reflexivity.
Qed.

Lemma escape_item_length (s : string) :
  Str.length (escape_item s) = Str.length s + Measure.specials s.
Proof.
  induction s as [|c s IH]; [reflexivity|].
  rewrite escape_item_cons, length_append, escaped_char_length, IH.
  cbn [Str.length Measure.specials]. lia.
Qed.

Lemma escape_item_plain (s : string) :
  Measure.specials s = 0 -> escape_item s = s.
Proof.
  induction s as [|c s IH]; [reflexivity|].
  cbn [Measure.specials]. rewrite escape_item_cons. unfold escaped_char.
  destruct (N.eqb c bs); [discriminate|].
  destruct (N.eqb c dq); [discriminate|].
  simpl. intros H. now rewrite (IH H).
Qed.

(** X5. The escaping works element part by element part: the escaped text
    of a concatenation is the concatenation of the escaped texts; it grows
    the text by one character for each backslash and each double quote; and
    it leaves a text unchanged exactly when the text has neither. *)
Theorem escaping_is_characterwise :
  (forall a b : string,
      escape_item (a ++ b) = escape_item a ++ escape_item b)
  /\ (forall s : string,
         Str.length (escape_item s)
         = Str.length s + Measure.specials s)
  /\ (forall s : string, escape_item s = s <-> Measure.specials s = 0).
Proof.
  split; [|split].
  - intros a b. unfold escape_item. now rewrite !replace_app.
  - exact escape_item_length.
  - intros s. split; [|apply escape_item_plain].
    intros H. pose proof (escape_item_length s) as Hl.
    rewrite H in Hl. lia.
Qed.

(** * Further properties of the row builder *)

Section RowColumns.

Import Shape.

Lemma build_row_not_a_mapping (q : json) :
  is_dict q = false ->
  build_row q = Raise (AttributeError (Py.type_name q) "get").
Proof.
  intros H. destruct q; try discriminate; reflexivity.
Qed.

Lemma array_field_error (d : dict) (key : string) :
  absent_or encodable d key = false ->
  format_pg_array_correctly (Dict.get key d (JList []))
  = Raise (TypeError_not_iterable
             (Py.type_name (Dict.get key d (JList [])))).
Proof.
  unfold absent_or, Dict.get. intros H.
  destruct (Dict.lookup key d) as [v|]; [|discriminate].
  now apply format_not_encodable.
Qed.

(** The exception of the row builder on a mapping is of one of two
    kinds. *)
Lemma build_row_error_kind (d : dict) (e : exn) :
  build_row (JDict d) = Raise e ->
  exists t : string,
    e = TypeError_not_iterable t \/ e = AttributeError t "get".
Proof.
  unfold build_row.
  rewrite !get_dict, encode_explanation_dict. cbn [bind].
  destruct (absent_or encodable d "options") eqn:Ho;
    [rewrite (array_field_ok _ _ Ho); cbn [bind]
    |rewrite (array_field_error _ _ Ho); cbn [bind];
     intros [= <-]; eauto].
  destruct (absent_or encodable d "options_hi") eqn:Hoh;
    [rewrite (array_field_ok _ _ Hoh); cbn [bind]
    |rewrite (array_field_error _ _ Hoh); cbn [bind];
     intros [= <-]; eauto].
  destruct (absent_or encodable d "tags") eqn:Ht;
    [rewrite (array_field_ok _ _ Ht); cbn [bind]
    |rewrite (array_field_error _ _ Ht); cbn [bind];
     intros [= <-]; eauto].
  destruct (absent_or is_dict d "classification") eqn:Hc;
    [rewrite !(nested_get_ok _ _ _ Hc); cbn [bind]
    |rewrite (nested_get_raises _ _ _ Hc); cbn [bind];
     intros [= <-]; eauto].
  destruct (absent_or is_dict d "sourceInfo") eqn:Hs;
    [rewrite !(nested_get_ok _ _ _ Hs); cbn [bind]
    |rewrite (nested_get_raises _ _ _ Hs); cbn [bind];
     intros [= <-]; eauto].
  destruct (absent_or is_dict d "properties") eqn:Hp;
    [rewrite !(nested_get_ok _ _ _ Hp); cbn [bind]; discriminate
    |rewrite (nested_get_raises _ _ _ Hp); cbn [bind];
     intros [= <-]; eauto].
Qed.

End RowColumns.

(** X6. The row builder returns a row for a mapping exactly when the
    fields it does not pass through have a shape it accepts: [options],
    [options_hi] and [tags] absent, falsy or iterable, and [classification],
    [sourceInfo] and [properties] absent or mappings.  No other field can
    make it raise. *)
Theorem row_builder_succeeds_iff_well_shaped (d : dict) :
  (exists row : dict, build_row (JDict d) = Ok row)
  <-> Shape.well_shaped d = true.
Proof.
  split.
  - intros [row Hrow]. now destruct (well_shaped_of_row d row Hrow).
  - intros Hw. exists (Shape.row_of d). now apply build_row_ok.
Qed.

(** X7. The exceptions of the row builder: on a value that is not a mapping
    it raises the attribute error of the missing [get]; on a mapping it
    raises nothing but the type error of a value that cannot be iterated or
    the attribute error of a missing [get]. *)
Theorem row_builder_exceptions :
  (forall q : json,
      Shape.is_dict q = false ->
      build_row q = Raise (AttributeError (Py.type_name q) "get"))
  /\ (forall (d : dict) (e : exn),
         build_row (JDict d) = Raise e ->
         exists t : string,
           e = TypeError_not_iterable t \/ e = AttributeError t "get").
Proof.
  split; [exact build_row_not_a_mapping | exact build_row_error_kind].
Qed.

(** X8. Every row the row builder returns has the sixteen keys of the
    header, in the order of the header, so the writer never refuses it for
    an unknown field and writes its values in that order. *)
Theorem row_keys_follow_header (q : json) (row : dict) :
  build_row q = Ok row ->
  Dict.keys row = header
  /\ DictWriter.dict_to_list header row = Ok (map snd row).
Proof.
  intros H. destruct q as [| | | | | |d];
    try (rewrite build_row_not_a_mapping in H by reflexivity; discriminate).
  destruct (well_shaped_of_row d row H) as [_ ->]. split; reflexivity.
Qed.

(** X9. The fields [id], [question], [question_hi] and [correct] pass
    through: in every row built from a mapping, the columns [v1_id],
    [question], [question_hi] and [correct] hold the value of the field
    whatever its shape, and null when the field is absent. *)
Theorem passthrough_columns (d : dict) (row : dict) :
  build_row (JDict d) = Ok row ->
  Dict.lookup "v1_id" row = Some (Dict.get "id" d JNull)
  /\ Dict.lookup "question" row = Some (Dict.get "question" d JNull)
  /\ Dict.lookup "question_hi" row = Some (Dict.get "question_hi" d JNull)
  /\ Dict.lookup "correct" row = Some (Dict.get "correct" d JNull).
Proof.
  intros H. destruct (well_shaped_of_row d row H) as [_ ->].
  repeat split; reflexivity.
Qed.

(** X10. When a nested mapping is present, each of its sub-field columns
    holds the value of that key in the mapping, and null when the mapping
    lacks the key. *)
Theorem leaf_columns (d m : dict) (outer inner : string) (row : dict) :
  build_row (JDict d) = Ok row ->
  In outer Shape.nested_keys ->
  In inner (Shape.sub_fields outer) ->
  Dict.lookup outer d = Some (JDict m) ->
  Dict.lookup inner row = Some (Dict.get inner m JNull).
Proof.
  intros H Ho Hi Hm. destruct (well_shaped_of_row d row H) as [_ ->].
  rewrite (row_of_sub_fields d outer inner Ho Hi).
  unfold Shape.sub_field, Dict.get at 1. now rewrite Hm.
Qed.

(** X11. The three array columns of a row hold array literals: the empty
    literal when the field is absent, and for a field bound to a list the
    literal that the array-literal parser reads back as the texts of the
    elements of the list. *)
Theorem array_columns (d : dict) (key : string) (row : dict) :
  build_row (JDict d) = Ok row ->
  In key Shape.array_keys ->
  exists literal : string,
    Dict.lookup key row = Some (JStr literal)
    /\ (Dict.lookup key d = None -> literal = "{}")
    /\ (forall items : list json,
           Dict.lookup key d = Some (JList items) ->
           PgArray.parse literal = Some (map Py.str items)).
Proof.
  intros H Hk. destruct (well_shaped_of_row d row H) as [_ ->].
  exists (Shape.literal d key). split; [|split].
  - destruct Hk as [<-|[<-|[<-|[]]]]; reflexivity.
  - intros Habs. unfold Shape.literal, Dict.get. now rewrite Habs.
  - intros items Hitems. unfold Shape.literal, Dict.get. rewrite Hitems.
    rewrite format_of_list. apply literal_text_parses.
Qed.

(** * Further properties of the driver *)

(** X12. For every input array, the output is the header followed by the
    data rows, nothing is left uncaught, and the console has the start line,
    then error lines only, then one last line: either the completion
    message, whose count is the number of data rows in the output, or the
    line of the unexpected error that ended the loop, which is the attribute
    error of an element without [get] or the encoding error of an error line
    that could not be printed. *)
Theorem completion_count_is_row_count (qs : list json) :
  exists (rows : csv_file) (lines : list string),
    output (run (Document (JList qs))) = Some (map JStr header :: rows)
    /\ uncaught (run (Document (JList qs))) = None
    /\ Forall (fun line =>
                 exists id e,
                   line = "Error processing question " ++ Py.str id
                            ++ ": " ++ Py.str_exn e) lines
    /\ (console (run (Document (JList qs)))
        = ("Starting conversion of questions.json with CORRECTED script..."
             :: lines
             ++ [ ("Successfully converted "
                     ++ PyStr.of_Z (Z.of_nat (length rows))
                     ++ " questions to questions_for_supabase.csv"
                     ++ " using the correct format.")%str ])%list
        \/ exists e : exn,
             ((exists q : json, e = AttributeError (Py.type_name q) "get")
              \/ exists line : string,
                   e = UnicodeEncodeError (Codec.error_message line))
             /\ console (run (Document (JList qs)))
                = ("Starting conversion of questions.json with CORRECTED script..."
                     :: lines
                     ++ [ ("An unexpected error occurred: "
                             ++ Py.str_exn e)%str ])%list).
Proof.
  rewrite run_array.
  destruct (for_each_invariant qs
              (mkState [start_line] [map JStr header] 0))
    as (rows & lines & Hf & Hs & Hc & _ & Hl & He).
  exists rows, lines.
  destruct (for_each qs _) as [st [e|]]; cbn [fst snd] in *;
    cbn [f_out stdout count] in *.
  - assert (Hemit : emit (handle e) (stdout st)
                    = Ok (stdout st ++ [unexpected_line e])%list).
    { destruct (He e eq_refl) as [[q ->]|[line ->]]; cbn [handle];
        apply emit_ok, ascii_can_encode;
        [apply unexpected_attribute_ascii | apply unexpected_encode_ascii]. }
    rewrite Hemit. cbn [output uncaught console]. rewrite Hf, Hs.
    split; [reflexivity|]. split; [reflexivity|]. split; [exact Hl|].
    right. exists e. split; [exact (He e eq_refl) | reflexivity].
  - cbn [output uncaught console]. rewrite Hf, Hs, Hc.
    split; [reflexivity|]. split; [reflexivity|]. split; [exact Hl|].
    left. reflexivity.
Qed.

Section Mappings.

Import Shape.

Lemma for_each_mappings (ds : list dict) :
  (forall (d : dict) (e : exn),
      In d ds ->
      attempt (JDict d) = Raise e ->
      Codec.can_encode (error_line (Dict.get "id" d JNull) e) = true) ->
  forall st : state,
  exists lines : list string,
    Forall2 reported (filter (fun d => negb (converts d)) ds) lines
    /\ for_each (map JDict ds) st
       = (mkState
            (stdout st ++ lines)%list
            (f_out st
               ++ map (fun d => map snd (row_of d)) (filter converts ds))%list
            (count st + length (filter converts ds)),
          None).
Proof.
  induction ds as [|d ds IH]; intros Hp st; simpl.
  - exists []. split; [constructor|].
    rewrite !app_nil_r, Nat.add_0_r. now destruct st.
  - assert (Hp' : forall (d' : dict) (e : exn),
               In d' ds ->
               attempt (JDict d') = Raise e ->
               Codec.can_encode (error_line (Dict.get "id" d' JNull) e)
               = true)
      by (intros d' e Hin; apply Hp; now right).
    destruct (converts d) eqn:Hw; simpl.
    + rewrite (process_ok _ _ st (attempt_converts d Hw)).
      destruct (IH Hp'
                  (mkState (stdout st)
                           (f_out st ++ [map snd (row_of d)])%list
                           (S (count st))))
        as (lines & Hl & ->).
      exists lines. split; [exact Hl|]. simpl.
      rewrite <- app_assoc, Nat.add_succ_r. reflexivity.
    + destruct (attempt_not_converts d Hw) as [e He].
      pose proof (Hp d e (or_introl eq_refl) He) as Hc.
      rewrite (process_raises d e st He Hc).
      destruct (IH Hp'
                  (mkState
                     (stdout st ++ [error_line (Dict.get "id" d JNull) e])%list
                     (f_out st) (count st)))
        as (lines & Hl & ->).
      exists (error_line (Dict.get "id" d JNull) e :: lines). split.
      * constructor; [now exists e | exact Hl].
      * simpl. rewrite <- app_assoc. reflexivity.
Qed.

End Mappings.

(** X13. On an array of mappings whose error lines can all be encoded,
    the run completes.  The output is the header followed by the rows of the
    records that are well-shaped and can be written, in their order in the
    input; the console has one error line for each of the other records, in
    their order, between the start line and the completion message, whose
    count is the number of rows. *)
Theorem mappings_with_printable_lines_complete (ds : list dict) :
  (forall (d : dict) (e : exn),
      In d ds ->
      attempt (JDict d) = Raise e ->
      Codec.can_encode
        ("Error processing question " ++ Py.str (Dict.get "id" d JNull)
           ++ ": " ++ Py.str_exn e) = true) ->
  exists lines : list string,
    Forall2 reported (filter (fun d => negb (Shape.converts d)) ds) lines
    /\ run (Document (JList (map JDict ds)))
       = mkWorld
           ("Starting conversion of questions.json with CORRECTED script..."
              :: lines
              ++ [ ("Successfully converted "
                      ++ PyStr.of_Z
                           (Z.of_nat (length (filter Shape.converts ds)))
                      ++ " questions to questions_for_supabase.csv"
                      ++ " using the correct format.")%str ])%list
           (Some (map JStr header
                    :: map (fun d => map snd (Shape.row_of d))
                           (filter Shape.converts ds)))
           None.
Proof.
  intros Hp.
  destruct (for_each_mappings ds Hp (mkState [start_line] [map JStr header] 0))
    as (lines & Hl & Hrun).
  exists lines. split; [exact Hl|].
  rewrite run_array, Hrun. reflexivity.
Qed.

Lemma run_not_iterable (v : json) (e : exn) :
  Py.iter v = Raise e ->
  Codec.can_encode (handle e) = true ->
  run (Document v)
  = mkWorld [ start_line; handle e ] (Some [ map JStr header ]) None.
Proof.
  intros H Hc. rewrite run_document, H. now rewrite (emit_ok _ _ Hc).
Qed.

Lemma run_iterable (v : json) (qs : list json) :
  Py.iter v = Ok qs -> run (Document v) = run (Document (JList qs)).
Proof.
  intros H. now rewrite !run_document, H.
Qed.

(** X14. A document whose top-level value is not an array never gives a
    data row: the output is the header alone.  Null, a boolean or a number
    ends the run on the type error of a value that cannot be iterated; a
    string or a mapping is iterated by characters or by keys, so the run
    completes with a count of zero when it is empty and otherwise ends on
    the attribute error of the first character or key. *)
Theorem only_arrays_give_rows (v : json) :
  (forall l : list json, v <> JList l) ->
  output (run (Document v)) = Some [ map JStr header ]
  /\ console (run (Document v))
     = [ start_line;
         match v with
         | JStr EmptyString | JDict [] => success_line 0
         | JStr _ | JDict _ => unexpected_line (AttributeError "str" "get")
         | _ => unexpected_line (TypeError_not_iterable (Py.type_name v))
         end ].
Proof.
  intros Hv. destruct v as [|b|n|x|s|l|d].
  - now rewrite (run_not_iterable JNull _ eq_refl eq_refl).
  - now rewrite (run_not_iterable (JBool b) _ eq_refl eq_refl).
  - now rewrite (run_not_iterable (JInt n) _ eq_refl eq_refl).
  - now rewrite (run_not_iterable (JFloat x) _ eq_refl eq_refl).
  - rewrite (run_iterable (JStr s) _ eq_refl).
    destruct s as [|c s]; [now split|].
    simpl map.
    rewrite (not_a_mapping_run_cons (JStr (chr c)) _ eq_refl).
    split; reflexivity.
  - now destruct (Hv l).
  - rewrite (run_iterable (JDict d) _ eq_refl).
    destruct d as [|[k x] d]; [now split|].
    simpl map.
    rewrite (not_a_mapping_run_cons (JStr k) _ eq_refl).
    split; reflexivity.
Qed.

(** X15. The header row is in the output exactly when the input document
    was read: a missing input leaves the output unopened, an input that is
    not JSON leaves it opened and empty, and every document that was read,
    whatever its top-level value, has the header as its first row. *)
Theorem header_written_iff_document_read (f : input_file) :
  ((exists rows : csv_file,
       output (run f) = Some (map JStr header :: rows))
   <-> (exists v : json, f = Document v))
  /\ output (run Missing) = None
  /\ (forall message : string, output (run (Malformed message)) = Some [])
  /\ (forall v : json,
         exists rows : csv_file,
           output (run (Document v)) = Some (map JStr header :: rows)).
Proof.
  assert (Hmal : forall message : string,
             output (run (Malformed message)) = Some []).
  { intros message. unfold run.
    change (emit start_line []) with (Ok [start_line]). cbn [try_body].
    destruct (emit _ _); reflexivity. }
  assert (Hdoc : forall v : json,
             exists rows : csv_file,
               output (run (Document v)) = Some (map JStr header :: rows)).
  { intros v. rewrite run_document. destruct (Py.iter v) as [qs|e].
    - destruct (for_each_invariant qs
                  (mkState [start_line] [map JStr header] 0))
        as (rows & lines & Hf & _).
      exists rows.
      destruct (for_each qs _) as [st [e|]]; cbn [fst] in Hf.
      + destruct (emit (handle e) (stdout st)); cbn [output]; now rewrite Hf.
      + cbn [output]. now rewrite Hf.
    - exists []. destruct (emit _ _); reflexivity. }
  split; [|split; [reflexivity | split; [exact Hmal | exact Hdoc]]].
  split.
  - intros [rows H]. destruct f as [|message|v]; [| |now exists v].
    + discriminate H.
    + rewrite Hmal in H. discriminate H.
  - intros [v ->]. apply Hdoc.
Qed.

(** * The JSON text of the explanation column *)

Section JsonText.

Import Measure.

(** Induction on a value, with the elements of a list and the values of a
    mapping as smaller values. *)
Lemma json_nested_ind (P : json -> Prop) :
  P JNull ->
  (forall b, P (JBool b)) ->
  (forall n, P (JInt n)) ->
  (forall x, P (JFloat x)) ->
  (forall s, P (JStr s)) ->
  (forall l, Forall P l -> P (JList l)) ->
  (forall d, Forall (fun kv => P (snd kv)) d -> P (JDict d)) ->
  forall v, P v.
Proof.
  intros Hnull Hbool Hint Hfloat Hstr Hlist Hdict.
  fix IH 1. intros [|b|n|x|s|l|d].
  - exact Hnull.
  - apply Hbool.
  - apply Hint.
  - apply Hfloat.
  - apply Hstr.
  - apply Hlist. induction l as [|y l IHl]; constructor;
      [apply IH | exact IHl].
  - apply Hdict. induction d as [|[k y] d IHd]; constructor;
      [apply IH | exact IHd].
Qed.

Lemma all_chars_join (p : char -> bool) (sep : string)
    (parts : list string) :
  all_chars p sep = true ->
  Forall (fun s => all_chars p s = true) parts ->
  all_chars p (PyStr.join sep parts) = true.
Proof.
  intros Hsep. induction 1 as [|s parts Hs Hparts IH]; [reflexivity|].
  destruct parts as [|s' parts]; [exact Hs|].
  change (PyStr.join sep (s :: s' :: parts))
    with (s ++ sep ++ PyStr.join sep (s' :: parts)).
  now rewrite !all_chars_app, Hs, Hsep, IH.
Qed.

Lemma escape_char_ascii (c : char) :
  all_chars printable_ascii (Json.escape_char c) = true.
Proof.
  unfold Json.escape_char.
  repeat (match goal with
          | |- context [if N.eqb c ?k then _ else _] =>
              destruct (N.eqb c k); [reflexivity|]
          end).
  destruct ((32 <=? c)%N && (c <=? 126)%N) eqn:Hc.
  - cbn [chr all_chars]. unfold printable_ascii. now rewrite Hc.
  - destruct (c <? 65536)%N; split_chars; reflexivity.
Qed.

Lemma encode_string_ascii (s : string) :
  all_chars printable_ascii (Json.encode_string s) = true.
Proof.
  unfold Json.encode_string. cbn [all_chars]. rewrite all_chars_app.
  replace (all_chars printable_ascii (Json.escape s)) with true;
    [reflexivity|].
  induction s as [|c s IH]; [reflexivity|].
  cbn [Json.escape]. now rewrite all_chars_app, escape_char_ascii, <- IH.
Qed.

Lemma float_text_ascii (digits : list Float.fchar) :
  all_chars printable_ascii (Float.text digits) = true.
Proof.
  induction digits as [|f digits IH]; [reflexivity|].
  cbn [Float.text all_chars]. rewrite IH. now destruct f.
Qed.

Lemma float_json_ascii (x : Float.pyfloat) :
  all_chars printable_ascii (Float.json_text x) = true.
Proof.
  destruct x as [digits|[|]|]; try reflexivity. apply float_text_ascii.
Qed.

Lemma dumps_ascii (v : json) :
  all_chars printable_ascii (Json.dumps v) = true.
Proof.
  induction v as [|b|n|x|s|l IH|d IH] using json_nested_ind.
  - reflexivity.
  - now destruct b.
  - apply of_Z_ascii.
  - apply float_json_ascii.
  - apply encode_string_ascii.
  - cbn [Json.dumps]. cbn [Str.append all_chars]. rewrite all_chars_app.
    rewrite all_chars_join; [reflexivity | reflexivity|].
    induction IH; constructor; assumption.
  - cbn [Json.dumps]. cbn [Str.append all_chars]. rewrite all_chars_app.
    rewrite all_chars_join; [reflexivity | reflexivity|].
    induction IH as [|[k y] d Hy _ IHd]; constructor; [|exact IHd].
    cbn [fst snd] in *.
    rewrite all_chars_app, encode_string_ascii. cbn [Str.append all_chars].
    now rewrite Hy.
Qed.

End JsonText.

(** X16. The explanation column is plain text: the nested-object encoder
    does not raise on a mapping, whatever the [explanation] field holds, and
    the JSON text it puts in the row has no character outside the range
    from the space to the tilde, every other character being escaped. *)
Theorem explanation_column_is_ascii (d : dict) (row : dict) :
  build_row (JDict d) = Ok row ->
  exists text : string,
    encode_explanation (JDict d) = Ok text
    /\ Dict.lookup "explanation" row = Some (JStr text)
    /\ Measure.all_chars Measure.printable_ascii text = true.
Proof.
  intros H. destruct (well_shaped_of_row d row H) as [_ ->].
  exists (Json.dumps (Dict.get "explanation" d (JDict []))).
  split; [reflexivity|]. split; [reflexivity|]. apply dumps_ascii.
Qed.

(** X18. A well-shaped record one of whose cells holds a surrogate is not
    written: the row is built, the write raises the encoding error inside
    the [try] block, and the loop, when it goes on, has printed the error
    line of the record and has left the output and the counter as they
    were. *)
Theorem unwritable_row_is_not_written (d : dict) (st : state) :
  Shape.well_shaped d = true ->
  Shape.writable d = false ->
  build_row (JDict d) = Ok (Shape.row_of d)
  /\ attempt (JDict d)
     = Raise (UnicodeEncodeError
                (csv_error (map cell_text (map snd (Shape.row_of d)))))
  /\ (forall st' : state,
         process (JDict d) st = Ok st' ->
         f_out st' = f_out st
         /\ count st' = count st
         /\ stdout st'
            = (stdout st
                 ++ [ ("Error processing question "
                         ++ Py.str (Dict.get "id" d JNull) ++ ": "
                         ++ csv_error
                              (map cell_text
                                   (map snd (Shape.row_of d))))%str ])%list).
Proof.
  intros Hw Hc.
  pose proof (attempt_unwritable d Hw Hc) as Ha.
  split; [now apply build_row_ok|]. split; [exact Ha|].
  intros st'.
  destruct (Codec.can_encode
              (error_line (Dict.get "id" d JNull)
                 (UnicodeEncodeError
                    (csv_error (map cell_text (map snd (Shape.row_of d)))))))
    eqn:Hp.
  - rewrite (process_raises d _ st Ha Hp). intros [= <-].
    repeat split; reflexivity.
  - rewrite (process_unprintable d _ st Ha Hp). discriminate.
Qed.

End Properties.

(** * The properties on the samples *)

Section Samples.

#[local] Existing Instance Sample.library.

(** C3 as stated does not hold: a null [explanation] is encoded as the
    JSON null, not as an empty object. *)
Lemma null_explanation_is_not_empty_object :
  encode_explanation (JDict Sample.null_explanation) <> Ok "{}".
Proof. vm_compute. discriminate. Qed.

Lemma explanation_encoding_witness :
  (Dict.lookup "explanation" Sample.bare = None
   /\ encode_explanation (JDict Sample.bare) = Ok "{}")
  /\ (Dict.lookup "explanation" Sample.null_explanation = Some JNull
      /\ encode_explanation (JDict Sample.null_explanation) = Ok "null")
  /\ (Dict.lookup "explanation" Sample.full = Some Sample.x_is_1
      /\ exists text : string,
           encode_explanation (JDict Sample.full) = Ok text
           /\ JsonRead.loads text = Some Sample.x_is_1).
Proof.
  split; [|split].
  - split; [reflexivity|].
    apply (proj1 (explanation_encoding Sample.bare)). reflexivity.
  - split; [reflexivity|].
    apply (proj1 (proj2 (explanation_encoding Sample.null_explanation))).
    reflexivity.
  - split; [reflexivity|].
    apply (proj2 (proj2 (explanation_encoding Sample.full))).
    reflexivity.
Defined.

Lemma falsy_gives_empty_literal_witness :
  Py.truthy (JInt 0) = false
  /\ format_pg_array_correctly (JInt 0) = Ok "{}".
Proof.
  split; [reflexivity|].
  apply (proj1 falsy_gives_empty_literal (JInt 0)). reflexivity.
Defined.

Lemma missing_nested_mapping_gives_nulls_witness :
  In "classification" Shape.nested_keys
  /\ Dict.lookup "classification" Sample.bare = None
  /\ Shape.well_shaped Sample.bare = true
  /\ nested_get (JDict Sample.bare) "classification" "subject" = Ok JNull
  /\ exists row : dict,
       build_row (JDict Sample.bare) = Ok row
       /\ Dict.lookup "topic" row = Some JNull.
Proof.
  assert (Hin : In "classification" Shape.nested_keys) by (now left).
  assert (Habs : Dict.lookup "classification" Sample.bare = None)
    by reflexivity.
  assert (Hw : Shape.well_shaped Sample.bare = true) by reflexivity.
  destruct (missing_nested_mapping_gives_nulls
              Sample.bare "classification" Hin Habs) as (Hget & Hnull & Hrow).
  split; [exact Hin|]. split; [exact Habs|]. split; [exact Hw|].
  split; [apply Hget|].
  destruct (Hrow Hw) as [row Hr]. exists row. split; [exact Hr|].
  apply (Hnull row Hr). right; now left.
Defined.



(** C1 as stated does not hold: of these two records the first raises,
    its [sourceInfo] being null, and the second is built and written when it
    is tried alone; but the identifier of the first is a lone surrogate, its
    error line cannot be printed, and the run ends there: the record is not
    reported, and there is no data row where the claim counts one. *)
Lemma lone_surrogate_identifier_ends_the_run :
  attempt (JDict Sample.null_source_surrogate_id)
  = Raise (AttributeError "NoneType" "get")
  /\ attempt (JDict Sample.bare) = Ok (map snd (Shape.row_of Sample.bare))
  /\ run (Document (JList [ JDict Sample.null_source_surrogate_id;
                            JDict Sample.bare ]))
     = mkWorld
         [ "Starting conversion of questions.json with CORRECTED script...";
           "An unexpected error occurred: 'utf-8' codec can't encode character '\ud800' in position 26: surrogates not allowed" ]
         (Some [ map JStr header ]) None.
Proof. repeat split; reflexivity. Qed.

Lemma one_failing_record_is_skipped_witness :
  attempt (JDict Sample.full) = Ok (map snd (Shape.row_of Sample.full))
  /\ attempt (JDict Sample.null_source)
     = Raise (AttributeError "NoneType" "get")
  /\ Codec.can_encode
       "Error processing question 2: 'NoneType' object has no attribute 'get'"
     = true
  /\ attempt (JDict Sample.bare) = Ok (map snd (Shape.row_of Sample.bare))
  /\ console (run (Document (JList [ JDict Sample.full;
                                     JDict Sample.null_source;
                                     JDict Sample.bare ])))
     = [ "Starting conversion of questions.json with CORRECTED script...";
         "Error processing question 2: 'NoneType' object has no attribute 'get'";
         "Successfully converted 2 questions to questions_for_supabase.csv using the correct format." ]
  /\ output (run (Document (JList [ JDict Sample.full;
                                    JDict Sample.null_source;
                                    JDict Sample.bare ])))
     = Some [ map JStr header;
              map snd (Shape.row_of Sample.full);
              map snd (Shape.row_of Sample.bare) ].
Proof.
  assert (H1 : attempt (JDict Sample.full)
               = Ok (map snd (Shape.row_of Sample.full))) by reflexivity.
  assert (H2 : attempt (JDict Sample.null_source)
               = Raise (AttributeError "NoneType" "get")) by reflexivity.
  assert (Hc : Codec.can_encode
                 "Error processing question 2: 'NoneType' object has no attribute 'get'"
               = true) by reflexivity.
  assert (H3 : attempt (JDict Sample.bare)
               = Ok (map snd (Shape.row_of Sample.bare))) by reflexivity.
  split; [exact H1|]. split; [exact H2|]. split; [exact Hc|].
  split; [exact H3|].
  destruct (one_failing_record_is_skipped
              [JDict Sample.full] [JDict Sample.bare] Sample.null_source
              (AttributeError "NoneType" "get")
              [map snd (Shape.row_of Sample.full)]
              [map snd (Shape.row_of Sample.bare)]
              (Forall2_cons _ _ H1 (Forall2_nil _))
              H2 Hc
              (Forall2_cons _ _ H3 (Forall2_nil _)))
    as (Hconsole & Houtput & _).
  split; [exact Hconsole | exact Houtput].
Defined.

Lemma not_a_mapping_ends_the_run_witness :
  attempt (JDict Sample.bare) = Ok (map snd (Shape.row_of Sample.bare))
  /\ Shape.is_dict (JInt 5) = false
  /\ run (Document (JList [ JDict Sample.bare; JInt 5; JDict Sample.full ]))
     = mkWorld
         [ "Starting conversion of questions.json with CORRECTED script...";
           "An unexpected error occurred: 'int' object has no attribute 'get'" ]
         (Some [ map JStr header; map snd (Shape.row_of Sample.bare) ])
         None.
Proof.
  assert (H1 : attempt (JDict Sample.bare)
               = Ok (map snd (Shape.row_of Sample.bare))) by reflexivity.
  assert (H2 : Shape.is_dict (JInt 5) = false) by reflexivity.
  split; [exact H1|]. split; [exact H2|].
  exact (not_a_mapping_ends_the_run
           [ JDict Sample.bare ] [ JDict Sample.full ] (JInt 5)
           [ map snd (Shape.row_of Sample.bare) ]
           (Forall2_cons _ _ H1 (Forall2_nil _)) H2).
Defined.

Lemma literal_determines_texts_witness :
  format_pg_array_correctly (JList [ JInt 1; JStr "x" ])
  = Ok Sample.one_x_literal
  /\ format_pg_array_correctly (JList [ JStr "1"; JStr "x" ])
     = Ok Sample.one_x_literal
  /\ map Py.str [ JInt 1; JStr "x" ] = map Py.str [ JStr "1"; JStr "x" ].
Proof.
  assert (H1 : format_pg_array_correctly (JList [ JInt 1; JStr "x" ])
               = Ok Sample.one_x_literal) by reflexivity.
  assert (H2 : format_pg_array_correctly (JList [ JStr "1"; JStr "x" ])
               = Ok Sample.one_x_literal) by reflexivity.
  split; [exact H1|]. split; [exact H2|].
  exact (literal_determines_texts _ _ _ H1 H2).
Defined.

Lemma encoder_raises_exactly_on_truthy_scalars_witness :
  5%Z <> 0%Z
  /\ format_pg_array_correctly (JInt 5)
     = Raise (TypeError_not_iterable "int")
  /\ match Sample.one_and_a_half with
     | JFloat x => Float.is_zero x = false
     | _ => False
     end
  /\ format_pg_array_correctly Sample.one_and_a_half
     = Raise (TypeError_not_iterable "float").
Proof.
  assert (H : 5%Z <> 0%Z) by discriminate.
  assert (Hx : Float.is_zero
                 (Float.Finite [ Float.F1; Float.FDot; Float.F5 ]) = false)
    by reflexivity.
  split; [exact H|].
  split; [exact (proj1 encoder_raises_exactly_on_truthy_scalars 5%Z H)|].
  split; [exact Hx|].
  exact (proj1 (proj2 encoder_raises_exactly_on_truthy_scalars) _ Hx).
Defined.

Lemma row_builder_exceptions_witness :
  Shape.is_dict (JStr "Q1") = false
  /\ build_row (JStr "Q1") = Raise (AttributeError "str" "get").
Proof.
  assert (H : Shape.is_dict (JStr "Q1") = false) by reflexivity.
  split; [exact H|].
  exact (proj1 row_builder_exceptions (JStr "Q1") H).
Defined.

Lemma row_keys_follow_header_witness :
  build_row (JDict Sample.bare) = Ok (Shape.row_of Sample.bare)
  /\ Dict.keys (Shape.row_of Sample.bare) = header.
Proof.
  assert (H : build_row (JDict Sample.bare) = Ok (Shape.row_of Sample.bare))
    by reflexivity.
  split; [exact H|].
  exact (proj1 (row_keys_follow_header _ _ H)).
Defined.

Lemma passthrough_columns_witness :
  build_row (JDict Sample.nested_correct)
  = Ok (Shape.row_of Sample.nested_correct)
  /\ Dict.lookup "correct" (Shape.row_of Sample.nested_correct)
     = Some (JDict [ ("a", JInt 1) ])
  /\ Dict.lookup "question" (Shape.row_of Sample.nested_correct)
     = Some JNull.
Proof.
  assert (H : build_row (JDict Sample.nested_correct)
              = Ok (Shape.row_of Sample.nested_correct)) by reflexivity.
  split; [exact H|].
  destruct (passthrough_columns _ _ H) as (_ & Hq & _ & Hc).
  split; [exact Hc | exact Hq].
Defined.

Lemma leaf_columns_witness :
  build_row (JDict Sample.partial) = Ok (Shape.row_of Sample.partial)
  /\ Dict.lookup "subject" (Shape.row_of Sample.partial)
     = Some (JStr "History")
  /\ Dict.lookup "topic" (Shape.row_of Sample.partial) = Some JNull.
Proof.
  assert (H : build_row (JDict Sample.partial)
              = Ok (Shape.row_of Sample.partial)) by reflexivity.
  assert (Ho : In "classification" Shape.nested_keys) by (now left).
  assert (Hm : Dict.lookup "classification" Sample.partial
               = Some (JDict [ ("subject", JStr "History") ]))
    by reflexivity.
  split; [exact H|]. split.
  - exact (leaf_columns Sample.partial [ ("subject", JStr "History") ]
             "classification" "subject" _ H Ho
             (or_introl eq_refl) Hm).
  - exact (leaf_columns Sample.partial [ ("subject", JStr "History") ]
             "classification" "topic" _ H Ho
             (or_intror (or_introl eq_refl)) Hm).
Defined.

Lemma array_columns_witness :
  build_row (JDict Sample.full) = Ok (Shape.row_of Sample.full)
  /\ In "options" Shape.array_keys
  /\ exists literal : string,
       Dict.lookup "options" (Shape.row_of Sample.full) = Some (JStr literal)
       /\ PgArray.parse literal = Some [ "A"; "B" ].
Proof.
  assert (H : build_row (JDict Sample.full) = Ok (Shape.row_of Sample.full))
    by reflexivity.
  assert (Hk : In "options" Shape.array_keys) by (now left).
  split; [exact H|]. split; [exact Hk|].
  destruct (array_columns _ "options" _ H Hk) as (literal & Hl & _ & Hp).
  exists literal. split; [exact Hl|].
  apply (Hp [ JStr "A"; JStr "B" ]). reflexivity.
Defined.

Lemma mappings_with_printable_lines_complete_witness :
  (forall (d : dict) (e : exn),
      In d [ Sample.full; Sample.null_source; Sample.surrogate_question;
             Sample.bare ] ->
      attempt (JDict d) = Raise e ->
      Codec.can_encode
        ("Error processing question " ++ Py.str (Dict.get "id" d JNull)
           ++ ": " ++ Py.str_exn e) = true)
  /\ exists lines : list string,
       Forall2 reported [ Sample.null_source; Sample.surrogate_question ]
               lines
       /\ run (Document (JList (map JDict [ Sample.full; Sample.null_source;
                                            Sample.surrogate_question;
                                            Sample.bare ])))
          = mkWorld
              ("Starting conversion of questions.json with CORRECTED script..."
                 :: lines
                 ++ [ "Successfully converted 2 questions to questions_for_supabase.csv using the correct format." ])%list
              (Some [ map JStr header;
                      map snd (Shape.row_of Sample.full);
                      map snd (Shape.row_of Sample.bare) ])
              None.
Proof.
  assert (Hp : forall (d : dict) (e : exn),
             In d [ Sample.full; Sample.null_source;
                    Sample.surrogate_question; Sample.bare ] ->
             attempt (JDict d) = Raise e ->
             Codec.can_encode
               ("Error processing question "
                  ++ Py.str (Dict.get "id" d JNull)
                  ++ ": " ++ Py.str_exn e) = true).
  { intros d e [<-|[<-|[<-|[<-|[]]]]] H; vm_compute in H;
      try discriminate H; injection H as <-; reflexivity. }
  split; [exact Hp|].
  exact (mappings_with_printable_lines_complete
           [ Sample.full; Sample.null_source; Sample.surrogate_question;
             Sample.bare ] Hp).
Defined.

Lemma only_arrays_give_rows_witness :
  (forall l : list json, JStr "abc" <> JList l)
  /\ output (run (Document (JStr "abc"))) = Some [ map JStr header ]
  /\ console (run (Document (JStr "abc")))
     = [ "Starting conversion of questions.json with CORRECTED script...";
         "An unexpected error occurred: 'str' object has no attribute 'get'" ].
Proof.
  assert (H : forall l : list json, JStr "abc" <> JList l)
    by (intros l; discriminate).
  split; [exact H|].
  exact (only_arrays_give_rows (JStr "abc") H).
Defined.

Lemma explanation_column_is_ascii_witness :
  build_row (JDict Sample.accented) = Ok (Shape.row_of Sample.accented)
  /\ exists text : string,
       Dict.lookup "explanation" (Shape.row_of Sample.accented)
       = Some (JStr text)
       /\ Measure.all_chars Measure.printable_ascii text = true.
Proof.
  assert (H : build_row (JDict Sample.accented)
              = Ok (Shape.row_of Sample.accented)) by reflexivity.
  split; [exact H|].
  destruct (explanation_column_is_ascii _ _ H) as (text & _ & Hl & Ha).
  exists text. split; [exact Hl | exact Ha].
Defined.

Lemma unwritable_row_is_not_written_witness :
  Shape.well_shaped Sample.surrogate_question = true
  /\ Shape.writable Sample.surrogate_question = false
  /\ attempt (JDict Sample.surrogate_question)
     = Raise
         (UnicodeEncodeError
            "'utf-8' codec can't encode character '\ud800' in position 10: surrogates not allowed").
Proof.
  assert (Hw : Shape.well_shaped Sample.surrogate_question = true)
    by reflexivity.
  assert (Hc : Shape.writable Sample.surrogate_question = false)
    by reflexivity.
  split; [exact Hw|]. split; [exact Hc|].
  exact (proj1 (proj2 (unwritable_row_is_not_written
                         Sample.surrogate_question (mkState [] [] 0)
                         Hw Hc))).
Defined.

End Samples.
